(** * js-net: the [Net] wrapper around [fetch] (src/index.js)

    A shallow embedding of the class [Net] of src/index.js and the
    properties of its request orchestration: the race between the retrying
    request and the deadline timer, and the normalisation of the raw
    outcome into one envelope that is returned, unwrapped or thrown.

    Conventions of the embedding.
    - JavaScript values are the type [value]; plain objects and arrays are
      finite maps from property names to values.  Numbers are integers.
    - An [async] method is a function that returns the events it performs,
      in order, together with the way its promise settles ([Ok] for a
      resolved promise, [Raise] for a rejected one).
    - Time is counted in milliseconds from the moment [fetch] starts the
      race; the transport primitive is a function from the attempt number,
      the url and the request descriptor to what the attempt does and when.
    - The options bag is a record with one field per option the code reads;
      flags keep their JavaScript value because the code distinguishes
      [x], [x === true] and [x !== false].  Option objects live in a heap
      and are passed by reference, as the code passes them.
    - What the JavaScript runtime throws on the way (a member written on
      [null] or on a primitive, [Object.defineProperty] on something that
      is not an object) is a [TypeError] of the run. *)

From stdpp Require Import gmap strings list fin_maps.
From Stdlib Require Import ZArith Ascii.

(** ** Values *)

(** What the transport primitive hands back: [status], the body that
    [text()] reads ([None]: the object has no [text] member), and the
    header table behind [headers.get] ([None]: no usable [headers.get]).
    Header names are the keys the code asks for. *)
Record FetchResponse := {
  status : Z;
  text : option string;
  headers : option (gmap string string);
}.

#[warnings="-register-all"]
Inductive value : Type :=
| VUndefined
| VNull
| VBool (b : bool)
| VNum (n : Z)
| VStr (s : string)
| VObj (array : bool) (props : gmap string value)
| VResponse (r : FetchResponse).

(** The data handed to the caller: a value and the two non-enumerable
    members that [Object.defineProperty] may attach to it. *)
Record annotated := {
  payload : value;
  _schema_ : option value;
  _count_ : option value;
}.

Definition plain (v : value) : annotated :=
  {| payload := v; _schema_ := None; _count_ := None |}.

Definition nonempty (s : string) : bool :=
  match s with EmptyString => false | String _ _ => true end.

(** ToBoolean. *)
Definition truthy (v : value) : bool :=
  match v with
  | VUndefined | VNull => false
  | VBool b => b
  | VNum n => negb (n =? 0)%Z
  | VStr s => nonempty s
  | VObj _ _ | VResponse _ => true
  end.

(** What [Object.defineProperty] accepts as its target. *)
Definition is_object (v : value) : bool :=
  match v with VObj _ _ | VResponse _ => true | _ => false end.

(** [v === true] and [v !== false]. *)
Definition is_true (v : value) : bool :=
  match v with VBool true => true | _ => false end.

Definition not_false (v : value) : bool :=
  match v with VBool false => false | _ => true end.

(** [a || b] on values. *)
Definition js_or (a b : value) : value := if truthy a then a else b.

(** [status == n].  The statuses the code meets are numbers (the [status]
    of a Response, the 444 of the timeout outcome) or [undefined], when the
    outcome carries none; a status of another type is not converted. *)
Definition loose_eq (v : value) (n : Z) : bool :=
  match v with VNum m => (m =? n)%Z | _ => false end.

(** Reading a member.  A member that is not there reads as [undefined]. *)
Definition get_prop (o : value) (k : string) : value :=
  match o with
  | VObj _ p => default VUndefined (p !! k)
  | VResponse r => if String.eqb k "status" then VNum (status r) else VUndefined
  | _ => VUndefined
  end.

Definition object_of (l : list (string * value)) : value :=
  VObj false (list_to_map l).

(** ** Events and settlements *)

Inductive event :=
| Callback (reason : string) (args : value)
| Printed (label data : string)
| ConsoleLog (msg : value)
| RetryLog (retry : nat)
| LogTrace (tag : string).

Inductive exn :=
| NetError (message payload : value)
| TypeError.

Inductive outcome (A : Type) :=
| Ok (a : A)
| Raise (e : exn).
Arguments Ok {A} a.
Arguments Raise {A} e.

(** A run of synchronous or awaited code: its events, then its result. *)
Definition Run (A : Type) : Type := list event * outcome A.

#[global] Instance Run_ret : MRet Run := λ A a, ([], Ok a).
#[global] Instance Run_bind : MBind Run := λ A B f m,
  match m.2 with
  | Ok a => (m.1 ++ (f a).1, (f a).2)
  | Raise e => (m.1, Raise e)
  end.

Definition emit (e : event) : Run unit := ([e], Ok tt).
Definition raise {A} (e : exn) : Run A := ([], Raise e).
Definition when (b : bool) (m : Run unit) : Run unit :=
  if b then m else mret tt.

(** [o.k = v] in strict-mode code: fails on [null], [undefined] and on
    primitives.  The code never writes a member of a Response (its
    envelope is the literal [{url}] or what [JSON.parse] returned), so the
    model leaves such a write out and fails there too. *)
Definition set_prop (o : value) (k : string) (v : value) : Run value :=
  match o with
  | VObj a p => mret (VObj a (<[k := v]> p))
  | _ => raise TypeError
  end.

(** [Object.assign(o, {k1: v1, ...})].  The code calls it on the envelope
    once [resp.response = response] has gone through, hence on an object. *)
Definition object_assign (o : value) (l : list (string * value)) : value :=
  match o with
  | VObj a p => VObj a (foldl (λ q kv, <[kv.1 := kv.2]> q) p l)
  | _ => o
  end.

(** ** The class [Net] *)

Module Net.

(** The options of one call.  A flag that is absent is [VUndefined]. *)
Record Options := {
  clear : value;
  feedback : value;
  body : value;
  log : value;
  method : option string;
  nologout : value;
  noparse : value;
  noprefix : value;
  nobase : value;
  progress : value;
  raw : value;
  throw : value;
  retries : option Z;
  base : option string;
  mode : option string;
  credentials : option string;
}.

(** [{}] *)
Definition no_options : Options := {|
  clear := VUndefined; feedback := VUndefined; body := VUndefined;
  log := VUndefined; method := None; nologout := VUndefined;
  noparse := VUndefined; noprefix := VUndefined; nobase := VUndefined;
  progress := VUndefined; raw := VUndefined; throw := VUndefined;
  retries := None; base := None; mode := None; credentials := None |}.

Definition set_method (m : string) (o : Options) : Options := {|
  clear := clear o; feedback := feedback o; body := body o; log := log o;
  method := Some m; nologout := nologout o; noparse := noparse o;
  noprefix := noprefix o; nobase := nobase o; progress := progress o;
  raw := raw o; throw := throw o; retries := retries o; base := base o;
  mode := mode o; credentials := credentials o |}.

Definition set_mode (m : string) (o : Options) : Options := {|
  clear := clear o; feedback := feedback o; body := body o; log := log o;
  method := method o; nologout := nologout o; noparse := noparse o;
  noprefix := noprefix o; nobase := nobase o; progress := progress o;
  raw := raw o; throw := throw o; retries := retries o; base := base o;
  mode := Some m; credentials := credentials o |}.

Definition set_credentials (c : string) (o : Options) : Options := {|
  clear := clear o; feedback := feedback o; body := body o; log := log o;
  method := method o; nologout := nologout o; noparse := noparse o;
  noprefix := noprefix o; nobase := nobase o; progress := progress o;
  raw := raw o; throw := throw o; retries := retries o; base := base o;
  mode := mode o; credentials := Some c |}.

Definition set_raw (v : value) (o : Options) : Options := {|
  clear := clear o; feedback := feedback o; body := body o; log := log o;
  method := method o; nologout := nologout o; noparse := noparse o;
  noprefix := noprefix o; nobase := nobase o; progress := progress o;
  raw := v; throw := throw o; retries := retries o; base := base o;
  mode := mode o; credentials := credentials o |}.

(** A string option is truthy when it is there and not empty. *)
Definition given (s : option string) : bool :=
  match s with Some t => nonempty t | None => false end.

(** [Net.config] as [setConfig] stored it; either member may be missing. *)
Record Config := {
  timeouts_http : option nat;
  prefix : option string;
}.

(** [getConfig]: the defaults, overridden by [Net.config]. *)
Definition getConfig (c : Config) : Config := {|
  timeouts_http := Some (default 30 (timeouts_http c));
  prefix := Some (default EmptyString (prefix c)) |}.

Definition http_seconds (c : Config) : nat := default 30 (timeouts_http (getConfig c)).
Definition config_prefix (c : Config) : string :=
  default EmptyString (prefix (getConfig c)).

(** [this.callback(reason, args)]: the call of the notification emitter.
    It hands [reason] and [args] to the installed [notify], if any, and
    swallows what [notify] throws. *)
Definition callback (reason : string) (args : value) : Run unit :=
  emit (Callback reason args).

(** The object the deadline timer resolves with. *)
Definition timeout_outcome : value :=
  object_of [("error", VBool true);
             ("message", VStr "Request timed out, please retry");
             ("severity", VStr "error");
             ("status", VNum 444)].

(** One attempt of the transport primitive, the global [fetch]: it never
    settles, or it rejects, or it resolves with a value, so many
    milliseconds after it was started. *)
Inductive attempt :=
| Hangs
| Rejects (after : nat)
| Resolves (after : nat) (v : value).

(** What [fetchRetry] comes to: its promise resolves at some time with a
    value, or it stays pending behind an attempt that hangs.  [attempts]
    counts the calls of the transport primitive. *)
Inductive retried :=
| Settled (time : nat) (response : value) (attempts : nat) (logs : list event)
| Pending (attempts : nat) (logs : list event)
| OutOfFuel.

(** The objects the caller and the methods share, by reference. *)
Abbreviation loc := nat (only parsing).
Abbreviation heap := (list Options) (only parsing).

Definition deref (h : heap) (l : loc) : Options := default no_options (h !! l).
Definition alloc (o : Options) (h : heap) : loc * heap := (length h, h ++ [o]).
Definition update (l : loc) (f : Options → Options) (h : heap) : heap := alter f l h.

(** ** Sample data for the examples

    Bodies as the server sends them, the values [JSON.parse] gives for
    them, and a decoder that knows a given table of bodies. *)

Definition quoted (s : string) : string :=
  String "034"%char s +:+ String "034"%char EmptyString.

Definition table_parse (t : list (string * value)) (s : string) : option value :=
  snd <$> List.find (λ kv, String.eqb kv.1 s) t.

Definition json_headers : gmap string string :=
  {[ "Content-Type" := "application/json" ]}.

Definition json_response (st : Z) (b : string) : FetchResponse :=
  {| status := st; text := Some b; headers := Some json_headers |}.

(** [{"data":{"ok":true}}] *)
Definition body_ok : string :=
  "{" +:+ quoted "data" +:+ ":{" +:+ quoted "ok" +:+ ":true}}".
Definition parsed_ok : value :=
  object_of [("data", object_of [("ok", VBool true)])].

(** [{"error":true}] *)
Definition body_error : string := "{" +:+ quoted "error" +:+ ":true}".
Definition parsed_error : value := object_of [("error", VBool true)].

(** [{"data":{"a":1},"count":3}] *)
Definition body_count : string :=
  "{" +:+ quoted "data" +:+ ":{" +:+ quoted "a" +:+ ":1}," +:+ quoted "count" +:+ ":3}".
Definition parsed_count : value :=
  object_of [("data", object_of [("a", VNum 1)]); ("count", VNum 3)].

(** [{"data":"abc","schema":"s"}] *)
Definition body_text_schema : string :=
  "{" +:+ quoted "data" +:+ ":" +:+ quoted "abc" +:+ "," +:+ quoted "schema"
      +:+ ":" +:+ quoted "s" +:+ "}".
Definition parsed_text_schema : value :=
  object_of [("data", VStr "abc"); ("schema", VStr "s")].

Definition sample_parse : string → option value :=
  table_parse [(body_ok, parsed_ok); (body_error, parsed_error);
               (body_count, parsed_count); (body_text_schema, parsed_text_schema);
               ("null", VNull)].

Definition with_retries (n : Z) : Options := {|
  clear := VUndefined; feedback := VUndefined; body := VUndefined;
  log := VUndefined; method := None; nologout := VUndefined;
  noparse := VUndefined; noprefix := VUndefined; nobase := VUndefined;
  progress := VUndefined; raw := VUndefined; throw := VUndefined;
  retries := Some n; base := None; mode := None; credentials := None |}.

Definition with_throw (v : value) : Options := {|
  clear := VUndefined; feedback := VUndefined; body := VUndefined;
  log := VUndefined; method := None; nologout := VUndefined;
  noparse := VUndefined; noprefix := VUndefined; nobase := VUndefined;
  progress := VUndefined; raw := VUndefined; throw := v;
  retries := None; base := None; mode := None; credentials := None |}.

Definition with_noprefix (v : value) : Options := {|
  clear := VUndefined; feedback := VUndefined; body := VUndefined;
  log := VUndefined; method := None; nologout := VUndefined;
  noparse := VUndefined; noprefix := v; nobase := VUndefined;
  progress := VUndefined; raw := VUndefined; throw := VUndefined;
  retries := None; base := None; mode := None; credentials := None |}.

(** A transport that rejects twice and then answers 200 with [body_ok]. *)
Definition third_time_lucky (n : nat) (url : string) (args : Options) : attempt :=
  match n with
  | 0 | 1 => Rejects 10
  | _ => Resolves 10 (VResponse (json_response 200 body_ok))
  end.

(** A transport that answers every call after [d] ms. *)
Definition answers (d : nat) (r : FetchResponse) (n : nat) (url : string)
    (args : Options) : attempt :=
  Resolves d (VResponse r).

(** A transport that never answers. *)
Definition silent (n : nat) (url : string) (args : Options) : attempt := Hangs.

(** A transport that answers every call with 200 and [body_ok], 1500 ms
    late. *)
Definition late : nat → string → Options → attempt :=
  answers 1500 (json_response 200 body_ok).

Definition raw_and_quiet : Options := set_raw (VBool true) (with_throw (VBool false)).

Definition default_config : Config := {| timeouts_http := None; prefix := None |}.
Definition one_second : Config := {| timeouts_http := Some 1; prefix := None |}.
Definition api_config : Config :=
  {| timeouts_http := None; prefix := Some "https://api.example.com" |}.

(** A transport that rejects every call after [d] ms. *)
Definition always_fails (d : nat) (n : nat) (url : string) (args : Options) : attempt :=
  Rejects d.

Definition with_feedback (v : value) : Options := {|
  clear := VUndefined; feedback := v; body := VUndefined;
  log := VUndefined; method := None; nologout := VUndefined;
  noparse := VUndefined; noprefix := VUndefined; nobase := VUndefined;
  progress := VUndefined; raw := VUndefined; throw := VUndefined;
  retries := None; base := None; mode := None; credentials := None |}.

Definition with_progress (v : value) : Options := {|
  clear := VUndefined; feedback := VUndefined; body := VUndefined;
  log := VUndefined; method := None; nologout := VUndefined;
  noparse := VUndefined; noprefix := VUndefined; nobase := VUndefined;
  progress := v; raw := VUndefined; throw := VUndefined;
  retries := None; base := None; mode := None; credentials := None |}.

Definition text_response (st : Z) (b : string) : FetchResponse :=
  {| status := st; text := Some b;
     headers := Some {[ "Content-Type" := "text/plain" ]} |}.

(** [{"error":true,"feedback":{"error":"Denied"}}] *)
Definition body_denied : string :=
  "{" +:+ quoted "error" +:+ ":true," +:+ quoted "feedback" +:+ ":{"
      +:+ quoted "error" +:+ ":" +:+ quoted "Denied" +:+ "}}".
Definition parsed_denied : value :=
  object_of [("error", VBool true);
             ("feedback", object_of [("error", VStr "Denied")])].
Definition denied_parse : string → option value :=
  table_parse [(body_denied, parsed_denied)].

Section Environment.

(** [JSON.parse(data, Json.decode)]: the decoder of the js-json package is
    not part of this repository.  [None] stands for a parse that throws. *)
Variable JSON_parse : string → option value.

(** The transport primitive: what its [n]-th call of one request does. *)
Variable transport : nat → string → Options → attempt.

(** [Net.config], [location.origin], and which of the two runs first when
    the timer and the settlement of an attempt fall on the same
    millisecond. *)
Variable Net_config : Config.
Variable location_origin : string.
Variable timer_first : bool.

(** Line 107: is the body decoded as JSON? *)
Definition is_json (options : Options) (data : string) (contentType : option string) : bool :=
  nonempty data
  && match contentType with
     | Some ct => nonempty ct && String.prefix "application/json" ct
     | None => false
     end
  && negb (truthy (noparse options)).

Definition content_type (r : FetchResponse) : option string :=
  h ← headers r; h !! "Content-Type".

(** Lines 101-116: the envelope after the body has been read. *)
Definition read_body (options : Options) (response resp : value) : Run value :=
  match response with
  | VResponse r =>
      match text r with
      | Some data =>
          if is_json options data (content_type r)
          then match JSON_parse data with
               | Some parsed => mret parsed
               | None => emit (Printed "CANNOT DECODE" data) ;; mret resp
               end
          else set_prop resp "data" (VStr data)
      | None => mret resp
      end
  | _ =>
      (* a member [text] on anything that is not a Response is not callable *)
      if truthy (get_prop response "text") then raise TypeError else mret resp
  end.

(** Lines 96-120: the envelope and the status it is classified by. *)
Definition build_envelope (url : string) (options : Options) (response : value)
    : Run (value * value) :=
  let resp := object_of [("url", VStr url)] in
  if truthy response then
    let status := get_prop response "status" in
    resp ← read_body options response resp;
    resp ← set_prop resp "response" response;
    mret (resp, status)
  else
    mret (resp, VNum 444).

(** Lines 122-133. *)
Definition status_check (options : Options) (status resp : value) : Run value :=
  if loose_eq status 401 then
    when (negb (is_true (nologout options))) (callback "logout" resp) ;;
    mret resp
  else if negb (loose_eq status 200) then
    mret (object_assign resp [("error", VBool true);
                               ("message", VStr "Could Not Communicate With Server");
                               ("severity", VStr "error")])
  else mret resp.

(** Lines 135-140. *)
Definition notify_feedback (options : Options) (status resp : value) : Run unit :=
  when (not_false (feedback options)
        && (negb (loose_eq status 200) || truthy (get_prop resp "error")))
       (callback "feedback" resp) ;;
  when (truthy (progress options)) (callback "stop" VUndefined).

(** [(resp.feedback || {}).error] *)
Definition feedback_error (resp : value) : value :=
  if truthy (get_prop resp "feedback")
  then get_prop (get_prop resp "feedback") "error"
  else VUndefined.

(** Lines 142-150. *)
Definition log_error (options : Options) (status resp : value) : Run value :=
  resp ← (if truthy (get_prop resp "error") && not_false (log options) then
            resp ← set_prop resp "message"
                     (js_or (get_prop resp "message") (feedback_error resp));
            when (negb (loose_eq status 401)) (emit (ConsoleLog (get_prop resp "message"))) ;;
            mret resp
          else mret resp);
  when (truthy (log options)) (emit (LogTrace "Fetch Response")) ;;
  mret resp.

(** Lines 96-150: the envelope as the call ends up with it. *)
Definition normalize (url : string) (options : Options) (response : value)
    : Run (value * value) :=
  '(resp, status) ← build_envelope url options response;
  resp ← status_check options status resp;
  notify_feedback options status resp ;;
  resp ← log_error options status resp;
  mret (resp, status).

(** [Object.defineProperty(data, name, {enumerable: false, value})]: fails
    on anything that is not an object; an enumerable member of that name
    is replaced by the hidden one. *)
Definition without (k : string) (data : value) : Run value :=
  match data with
  | VObj a p => mret (VObj a (delete k p))
  | VResponse r => mret data
  | _ => raise TypeError
  end.

(** Lines 161-175. *)
Definition annotate (resp : value) : Run annotated :=
  let data := get_prop resp "data" in
  if truthy data then
    d ← (if truthy (get_prop resp "schema") then without "_schema_" data else mret data);
    d ← (if truthy (get_prop resp "count") then without "_count_" d else mret d);
    mret {| payload := d;
            _schema_ := if truthy (get_prop resp "schema")
                        then Some (get_prop resp "schema") else None;
            _count_ := if truthy (get_prop resp "count")
                       then Some (get_prop resp "count") else None |}
  else mret (plain data).

(** Lines 152-175. *)
Definition finish (options : Options) (status resp : value) : Run annotated :=
  if truthy (get_prop resp "error") && not_false (throw options) then
    when (loose_eq status 401) (callback "login" VUndefined) ;;
    raise (NetError (js_or (get_prop resp "message") (VStr "Cannot complete operation")) resp)
  else if is_true (raw options) then mret (plain resp)
  else annotate resp.

Definition parseResponse (url : string) (options : Options) (response : value)
    : Run annotated :=
  '(resp, status) ← normalize url options response;
  finish options status resp.

(** *** The deadline timer and the retry driver *)

(** [state.timeout] as read at time [t]: has the timer, set for
    [deadline], run by then? *)
Definition timer_fired (deadline t : nat) : bool :=
  (deadline <? t) || (timer_first && (deadline =? t)).

(** [options.retries || 1] *)
Definition retries_or_1 (options : Options) : Z :=
  match retries options with
  | Some n => if (n =? 0)%Z then 1%Z else n
  | None => 1%Z
  end.

(** Lines 222-242, one pass of the [do ... while] from the call of the
    transport primitive on.  [retry] is the counter of the code, which is
    also the number of attempts made so far; [response] is the variable of
    that name. *)
Fixpoint retry_loop (fuel : nat) (url : string) (args : Options) (deadline now : nat)
    (retries : Z) (retry : nat) (response : value) (logs : list event) : retried :=
  let catch (t : nat) (response : value) : retried :=
    if timer_fired deadline t then Settled t VUndefined (S retry) logs
    else if (retries <=? 0)%Z then Settled t response (S retry) logs
    else
      let logs := logs ++ [RetryLog retry] in
      if (retries - 1 >? 0)%Z then
        match fuel with
        | S fuel => retry_loop fuel url args deadline t (retries - 1) (S retry) response logs
        | O => OutOfFuel
        end
      else Settled t response (S retry) logs in
  match transport retry url args with
  | Hangs => Pending (S retry) logs
  | Rejects d => catch (now + d) response
  | Resolves d v =>
      if truthy v then Settled (now + d) v (S retry) logs
      else catch (now + d) v
  end.

(** Lines 210-218: the request descriptor, a copy of the options. *)
Definition request_args (options : loc) (h : heap) : loc * heap :=
  let '(args, h) := alloc (deref h options) h in
  let h := if negb (given (method (deref h args)))
           then update args (set_method "POST") h else h in
  let h := update args (λ a, set_mode (if given (mode a) then default "cors" (mode a)
                                       else "cors") a) h in
  let h := update args (set_credentials "include") h in
  (args, h).

Definition fetchRetry (url : string) (deadline : nat) (options : loc) (h : heap)
    : heap * retried :=
  let retries := retries_or_1 (deref h options) in
  let '(args, h) := request_args options h in
  (h, retry_loop (Z.to_nat retries) url (deref h args) deadline 0 retries 0 VUndefined []).

(** [Promise.race([fetchRetry, timeout])]: the value [fetch] goes on with. *)
Definition outcome_race (deadline : nat) (r : retried) : option value :=
  match r with
  | Settled t v _ _ => Some (if timer_fired deadline t then timeout_outcome else v)
  | Pending _ _ => Some timeout_outcome
  | OutOfFuel => None
  end.

Definition logs_of (r : retried) : list event :=
  match r with
  | Settled _ _ _ l | Pending _ l => l
  | OutOfFuel => []
  end.

Definition attempts_of (r : retried) : nat :=
  match r with
  | Settled _ _ n _ | Pending n _ => n
  | OutOfFuel => 0
  end.

(** *** The facade *)

(** Lines 67-75. *)
Definition resolve_url (options : Options) (url : string) : string :=
  if negb (String.prefix "http" url) then
    if given (base options) then default EmptyString (base options) +:+ "/" +:+ url
    else if negb (truthy (nobase options)) && nonempty (config_prefix Net_config)
    then config_prefix Net_config +:+ "/" +:+ url
    else location_origin +:+ "/" +:+ url
  else url.

Definition deadline_ms : nat := http_seconds Net_config * 1000.

(** An argument [options = {}]: the object passed, or a fresh one. *)
Definition or_fresh (options : option loc) (h : heap) : loc * heap :=
  match options with
  | Some l => (l, h)
  | None => alloc no_options h
  end.

(** Lines 64-66 and 76-81: what [fetch] announces before the request. *)
Definition announce (options : Options) : Run unit :=
  when (truthy (clear options)) (callback "clear" VUndefined) ;;
  when (truthy (progress options)) (callback "start" VUndefined) ;;
  when (truthy (log options)) (emit (LogTrace "Fetch Request")).

(** Lines 63-92.  [None] only if the retry driver ran out of fuel, which
    [fetch_at_settles] below excludes. *)
Definition fetch_at (url : string) (options : loc) (h : heap)
    : heap * option (Run annotated) :=
  let o := deref h options in
  let url := resolve_url o url in
  let '(h, r) := fetchRetry url deadline_ms options h in
  (h, response ← outcome_race deadline_ms r;
      Some (announce o ;;
            (logs_of r, Ok tt) ;;
            parseResponse url (deref h options) response)).

Definition fetch (url : string) (options : option loc) (h : heap)
    : heap * option (Run annotated) :=
  let '(options, h) := or_fresh options h in
  fetch_at url options h.

Definition get (url : string) (options : option loc) (h : heap)
    : heap * option (Run annotated) :=
  let '(options, h) := or_fresh options h in
  let '(options, h) := alloc (deref h options) h in
  let h := update options (set_method "GET") h in
  fetch_at url options h.

Definition post (url : string) (options : option loc) (h : heap)
    : heap * option (Run annotated) :=
  let '(options, h) := or_fresh options h in
  let h := update options (set_method "POST") h in
  fetch_at url options h.

(** *** Notions the properties are stated with *)

(** The value that line 109 puts in place of the envelope, if the body is
    decoded. *)
Definition decoded (options : Options) (response : value) : option value :=
  match response with
  | VResponse r =>
      data ← text r;
      if is_json options data (content_type r) then JSON_parse data else None
  | _ => None
  end.

(** The envelope a call ends up with, if it gets as far as having one. *)
Definition envelope (url : string) (options : Options) (response : value)
    : option value :=
  match (normalize url options response).2 with
  | Ok (resp, _) => Some resp
  | Raise _ => None
  end.

(** The status a raw outcome is classified by (lines 100 and 119). *)
Definition status_of (response : value) : value :=
  if truthy response then get_prop response "status" else VNum 444.

(** The request descriptor handed to the transport primitive for given
    options: method [POST] unless set, mode [cors] unless set, credentials
    [include]. *)
Definition descriptor (o : Options) : Options :=
  set_credentials "include"
    (set_mode (if given (mode o) then default "cors" (mode o) else "cors")
       (if given (method o) then o else set_method "POST" o)).

(** The timer runs strictly before the retry driver has a result. *)
Definition elapses_first (deadline : nat) (r : retried) : Prop :=
  match r with
  | Settled t _ _ _ => deadline < t
  | Pending _ _ => True
  | OutOfFuel => False
  end.

(** The reasons of the notifications in a run. *)
Definition notified (reason : string) (tr : list event) : Prop :=
  ∃ args, Callback reason args ∈ tr.

(** The envelope of a call that got no response: lines 96, 119 and
    128-132. *)
Definition failure_envelope (url : string) : value :=
  object_of [("url", VStr url); ("error", VBool true);
             ("message", VStr "Could Not Communicate With Server");
             ("severity", VStr "error")].

(** The envelope of a call that timed out: the same, with the timeout
    outcome as its [response]. *)
Definition timeout_envelope (url : string) : value :=
  object_of [("url", VStr url); ("response", timeout_outcome);
             ("error", VBool true);
             ("message", VStr "Could Not Communicate With Server");
             ("severity", VStr "error")].



(** The time the first [n] attempts take when attempt [i] fails after
    [delay i] ms and the next one is made at once. *)
Definition elapsed (delay : nat → nat) (n : nat) : nat :=
  sum_list (delay <$> seq 0 n).

(** The attempts the retry driver allows: [options.retries || 1], and one
    where that is not positive (lines 215, 222 and 241). *)
Definition attempts_allowed (o : Options) : nat :=
  Z.to_nat (Z.max 1 (retries_or_1 o)).

(** ** Properties *)

(** No notification is among the events listed. *)
Ltac no_callback :=
  let Hin := fresh "Hin" in
  intros ? ? Hin;
  repeat (apply elem_of_cons in Hin as [Hin|Hin]; [discriminate|]);
  by apply elem_of_nil in Hin.

(** *** Runs *)

Lemma bind_ok_inv {A B} (m : Run A) (f : A → Run B) tr b :
  m ≫= f = (tr, Ok b) →
  ∃ tr1 a tr2, m = (tr1, Ok a) ∧ f a = (tr2, Ok b) ∧ tr = tr1 ++ tr2.
Proof.
  destruct m as [tr1 [a|e]]; unfold mbind, Run_bind; simpl; [|discriminate].
  destruct (f a) as [tr2 r] eqn:Hf; simpl. intros [= <- ->]. by exists tr1, a, tr2.
Qed.

Lemma bind_ok {A B} (f : A → Run B) tr a :
  (tr, Ok a) ≫= f = (tr ++ (f a).1, (f a).2).
Proof. done. Qed.

(** *** Members of objects *)

Lemma get_prop_insert a p k v k' :
  get_prop (VObj a (<[k := v]> p)) k' = if decide (k = k') then v else get_prop (VObj a p) k'.
Proof. simpl. rewrite lookup_insert. by case_decide. Qed.

Lemma set_prop_inv o k v tr o' :
  set_prop o k v = (tr, Ok o') →
  ∃ a p, o = VObj a p ∧ o' = VObj a (<[k := v]> p) ∧ tr = [].
Proof. destruct o; try discriminate. intros [= <- <-]. eauto. Qed.

Lemma set_prop_frame o k v tr o' k' :
  set_prop o k v = (tr, Ok o') → k ≠ k' → get_prop o' k' = get_prop o k'.
Proof.
  intros (a & p & -> & -> & _)%set_prop_inv Hk.
  rewrite get_prop_insert. by case_decide.
Qed.

Lemma object_assign_frame o l k :
  k ∉ l.*1 → get_prop (object_assign o l) k = get_prop o k.
Proof.
  destruct o; try done. simpl. revert props.
  induction l as [|[k1 v1] l IH]; intros p Hk; [done|].
  apply not_elem_of_cons in Hk as [Hne Hk].
  simpl. rewrite IH; [|done]. by rewrite lookup_insert_ne.
Qed.

(** *** The envelope under construction *)

Lemma read_body_inv o response resp tr resp' :
  read_body o response resp = (tr, Ok resp') →
  match decoded o response with
  | Some b => resp' = b
  | None => ∀ k, k ≠ "data" → get_prop resp' k = get_prop resp k
  end.
Proof.
  unfold read_body, decoded.
  destruct response as [| | | | | |r];
    try (case_match; [discriminate|]; by intros [= _ <-]).
  simpl. destruct (text r) as [data|]; simpl; [|by intros [= _ <-]].
  destruct (is_json o data (content_type r)).
  - destruct (JSON_parse data); by intros [= _ <-].
  - intros H k Hk. eapply set_prop_frame; [done|congruence].
Qed.

Lemma build_envelope_inv url o response tr resp st :
  build_envelope url o response = (tr, Ok (resp, st)) →
  st = status_of response
  ∧ (∃ a p, resp = VObj a p)
  ∧ ∀ k, k ≠ "response" →
      match decoded o response with
      | Some b => get_prop resp k = get_prop b k
      | None => k ≠ "data" → get_prop resp k = get_prop (object_of [("url", VStr url)]) k
      end.
Proof.
  unfold build_envelope, status_of. destruct (truthy response) eqn:Ht.
  - intros (tr1 & r1 & tr2 & Hr & (tr3 & r2 & tr4 & Hs & [= <- <- <-] & _)%bind_ok_inv & _)%bind_ok_inv.
    apply read_body_inv in Hr.
    pose proof Hs as (a & p & -> & -> & _)%set_prop_inv.
    split; [done|]. split; [eauto|]. intros k Hk.
    rewrite get_prop_insert. case_decide; [congruence|].
    destruct (decoded o response); [by subst|]. intros Hd. by apply Hr.
  - intros [= <- <- <-]. split; [done|]. split; [unfold object_of; eauto|].
    intros k Hk. destruct response; try done.
Qed.

Lemma status_check_inv o st resp tr resp' :
  status_check o st resp = (tr, Ok resp') →
  resp' = (if loose_eq st 401 || loose_eq st 200 then resp
           else object_assign resp [("error", VBool true);
                                    ("message", VStr "Could Not Communicate With Server");
                                    ("severity", VStr "error")])
  ∧ tr = (if loose_eq st 401 && negb (is_true (nologout o))
          then [Callback "logout" resp] else []).
Proof.
  unfold status_check. destruct (loose_eq st 401); simpl.
  - destruct (is_true (nologout o)); simpl; by intros [= <- <-].
  - destruct (loose_eq st 200); simpl; by intros [= <- <-].
Qed.

Lemma notify_feedback_run o st resp :
  notify_feedback o st resp =
    ((if not_false (feedback o)
         && (negb (loose_eq st 200) || truthy (get_prop resp "error"))
      then [Callback "feedback" resp] else [])
     ++ (if truthy (progress o) then [Callback "stop" VUndefined] else []), Ok tt).
Proof.
  unfold notify_feedback.
  destruct (not_false (feedback o) && _), (truthy (progress o)); done.
Qed.

Lemma log_error_inv o st resp tr resp' :
  log_error o st resp = (tr, Ok resp') →
  (∀ k, k ≠ "message" → get_prop resp' k = get_prop resp k)
  ∧ ∀ reason args, Callback reason args ∉ tr.
Proof.
  unfold log_error. destruct (truthy (get_prop resp "error") && not_false (log o)).
  - destruct resp; try discriminate. simpl.
    destruct (loose_eq st 401), (truthy (log o)); simpl; intros [= <- <-];
      (split; [intros k Hk; rewrite get_prop_insert; case_decide; [congruence|done]
              |no_callback]).
  - destruct (truthy (log o)); simpl; intros [= <- <-]; (split; [done|no_callback]).
Qed.

Lemma normalize_inv url o response tr resp st :
  normalize url o response = (tr, Ok (resp, st)) →
  ∃ tr0 r0 tr1 r1 tr2,
    build_envelope url o response = (tr0, Ok (r0, st))
    ∧ status_check o st r0 = (tr1, Ok r1)
    ∧ log_error o st r1 = (tr2, Ok resp)
    ∧ tr = tr0 ++ tr1 ++ (notify_feedback o st r1).1 ++ tr2.
Proof.
  unfold normalize.
  intros (tr0 & [r0 st0] & tr' & Hb & H & ->)%bind_ok_inv.
  apply bind_ok_inv in H as (tr1 & r1 & tr'' & Hs & H & ->).
  apply bind_ok_inv in H as (trf & [] & tr3 & Hf & H & ->).
  apply bind_ok_inv in H as (tr2 & r2 & tr4 & Hl & [= <- <- <-] & ->).
  exists tr0, r0, tr1, r1, tr2. by rewrite Hf, app_nil_r.
Qed.

Lemma envelope_inv url o response resp :
  envelope url o response = Some resp →
  ∃ tr, normalize url o response = (tr, Ok (resp, status_of response)).
Proof.
  unfold envelope. destruct (normalize url o response) as [tr [[r st]|e]] eqn:Hn;
    simpl; [|discriminate].
  intros [= ->]. exists tr. f_equal. f_equal. f_equal.
  apply normalize_inv in Hn as (? & ? & ? & ? & ? & Hb & _).
  by apply build_envelope_inv in Hb as [-> _].
Qed.

(** *** The members of the envelope *)

(** C10, as the code has it.  The envelope carries the request url as its
    [url] member unless the body was decoded as JSON: then the decoded
    value has taken the place of the envelope, and [url] is whatever the
    body said. *)
Theorem envelope_url url o response resp :
  envelope url o response = Some resp →
  get_prop resp "url" = match decoded o response with
                        | Some b => get_prop b "url"
                        | None => VStr url
                        end.
Proof.
  intros [tr Hn]%envelope_inv.
  apply normalize_inv in Hn as (tr0 & r0 & tr1 & r1 & tr2 & Hb & Hs & Hl & _).
  apply log_error_inv in Hl as [Hl _]. rewrite Hl by done.
  apply status_check_inv in Hs as [-> _].
  apply build_envelope_inv in Hb as (_ & _ & Hb). specialize (Hb "url").
  transitivity (get_prop r0 "url").
  { case_match; [done|]. apply object_assign_frame. simpl. intros Hin.
    repeat (apply elem_of_cons in Hin as [Hin|Hin]; [discriminate|]).
    by apply elem_of_nil in Hin. }
  destruct (decoded o response); [by apply Hb|by rewrite Hb].
Qed.

(** C3, as the code has it.  For a status other than 200 and 401, and for
    an outcome without status, the envelope has [error === true].  For 200
    and 401 the status check leaves [error] alone: it is the member the
    decoded body carried, and [undefined] when no body was decoded. *)
Theorem envelope_error url o response resp :
  envelope url o response = Some resp →
  get_prop resp "error" =
    if loose_eq (status_of response) 200 || loose_eq (status_of response) 401
    then match decoded o response with
         | Some b => get_prop b "error"
         | None => VUndefined
         end
    else VBool true.
Proof.
  intros [tr Hn]%envelope_inv.
  apply normalize_inv in Hn as (tr0 & r0 & tr1 & r1 & tr2 & Hb & Hs & Hl & _).
  apply log_error_inv in Hl as [Hl _]. rewrite Hl by done.
  apply status_check_inv in Hs as [-> _].
  apply build_envelope_inv in Hb as (_ & (a & p & ->) & Hb). specialize (Hb "error").
  rewrite (orb_comm (loose_eq _ 200)).
  destruct (loose_eq (status_of response) 401 || loose_eq (status_of response) 200).
  - destruct (decoded o response); [by apply Hb|by rewrite Hb].
  - simpl. rewrite !lookup_insert_ne by done. by rewrite lookup_insert_eq.
Qed.

(** *** Returning and throwing *)

Lemma annotate_silent resp : (annotate resp).1 = [].
Proof.
  unfold annotate. destruct (truthy (get_prop resp "data")); [|done].
  destruct (truthy (get_prop resp "schema")), (truthy (get_prop resp "count"));
    destruct (get_prop resp "data"); try done;
    simpl; by destruct (truthy (get_prop resp "count")).
Qed.

Lemma annotate_bare resp :
  truthy (get_prop resp "schema") = false →
  truthy (get_prop resp "count") = false →
  annotate resp = mret (plain (get_prop resp "data")).
Proof.
  unfold annotate. intros -> ->. by destruct (truthy (get_prop resp "data")).
Qed.

(** Annotating succeeds on data that is an object, and where there is
    nothing to attach. *)
Lemma annotate_ok resp :
  is_object (get_prop resp "data") = true
  ∨ truthy (get_prop resp "schema") = false ∧ truthy (get_prop resp "count") = false →
  ∃ v, annotate resp = ([], Ok v).
Proof.
  intros [Hobj|[Hs Hc]]; [|rewrite (annotate_bare resp Hs Hc); by eexists].
  unfold annotate.
  destruct (get_prop resp "data") as [| | | | |a p|r]; try discriminate; simpl;
    destruct (truthy (get_prop resp "schema")), (truthy (get_prop resp "count"));
    by eexists.
Qed.

Lemma annotate_frame r1 r2 :
  (∀ k, k ≠ "response" → get_prop r1 k = get_prop r2 k) → annotate r1 = annotate r2.
Proof. intros H. unfold annotate. by rewrite !H. Qed.

(** Lines 152-157: a failing call that may throw does throw, after a
    [login] notification when the status was 401.  The error carries the
    message of the envelope, or the default one, and the envelope. *)
Lemma finish_throws o st resp :
  truthy (get_prop resp "error") = true →
  not_false (throw o) = true →
  finish o st resp =
    (if loose_eq st 401 then [Callback "login" VUndefined] else [],
     Raise (NetError (js_or (get_prop resp "message") (VStr "Cannot complete operation"))
                     resp)).
Proof. unfold finish. intros -> ->. by destruct (loose_eq st 401). Qed.

(** Lines 158-175: with [throw: false] no network error is thrown. *)
Lemma finish_quiet o st resp :
  throw o = VBool false →
  finish o st resp = if is_true (raw o) then mret (plain resp) else annotate resp.
Proof. unfold finish. intros ->. by rewrite andb_false_r. Qed.

(** Lines 122-125: the status check on a 401. *)
Lemma status_check_401 o st resp :
  loose_eq st 401 = true →
  status_check o st resp =
    (if is_true (nologout o) then [] else [Callback "logout" resp], Ok resp).
Proof. unfold status_check. intros ->. by destruct (is_true (nologout o)). Qed.




(** *** The retry driver *)

Lemma deref_lookup h l o : h !! l = Some o → deref h l = o.
Proof. unfold deref. by intros ->. Qed.

Lemma request_args_spec l h :
  request_args l h = (length h, h ++ [descriptor (deref h l)]).
Proof.
  unfold request_args, alloc, update, deref, descriptor.
  set (o := default no_options (h !! l)).
  rewrite !(list_lookup_middle h [] o (length h)) by done. simpl.
  assert (∀ f x, alter f (length h) (h ++ [x]) = h ++ [f x]) as Halter.
  { intros f x. replace (length h) with (length h + 0) by lia.
    by rewrite (alter_app_r f h [x] 0). }
  destruct (given (method o)); simpl; by rewrite !Halter.
Qed.

Lemma fetchRetry_spec url deadline l h :
  fetchRetry url deadline l h =
    (h ++ [descriptor (deref h l)],
     retry_loop (Z.to_nat (retries_or_1 (deref h l))) url (descriptor (deref h l))
       deadline 0 (retries_or_1 (deref h l)) 0 VUndefined []).
Proof.
  unfold fetchRetry. rewrite request_args_spec.
  unfold deref at 3. by rewrite (list_lookup_middle h [] _ (length h)).
Qed.

(** The loop ends: with fuel for every remaining pass it never runs out. *)
Lemma retry_loop_fuel fuel url args deadline now n retry response logs :
  (n - 1 ≤ Z.of_nat fuel)%Z →
  retry_loop fuel url args deadline now n retry response logs ≠ OutOfFuel.
Proof.
  revert now n retry response logs.
  induction fuel as [|fuel IH]; intros now n retry response logs Hn; simpl;
    destruct (transport retry url args) as [|d|d v]; try done;
    try destruct (truthy v); try done;
    destruct (timer_fired deadline (now + d)); try done;
    destruct (n <=? 0)%Z eqn:Hle; try done;
    destruct (n - 1 >? 0)%Z eqn:Hgt; try done;
    try (apply IH; lia); lia.
Qed.

Lemma fetchRetry_settles url deadline l h :
  (fetchRetry url deadline l h).2 ≠ OutOfFuel.
Proof. rewrite fetchRetry_spec. simpl. apply retry_loop_fuel. lia. Qed.

(** [fetch] settles: the race always has a value to go on with. *)
Lemma fetch_at_settles url l h : is_Some (fetch_at url l h).2.
Proof.
  unfold fetch_at.
  pose proof (fetchRetry_settles (resolve_url (deref h l) url) deadline_ms l h) as Hs.
  destruct (fetchRetry _ _ l h) as [h' r]. simpl in *.
  destruct r; simpl; try done; eauto.
Qed.


Lemma retry_loop_rejects fuel url args deadline now n retry response logs d :
  transport retry url args = Rejects d →
  timer_fired deadline (now + d) = false →
  (1 < n)%Z →
  retry_loop (S fuel) url args deadline now n retry response logs
  = retry_loop fuel url args deadline (now + d) (n - 1) (S retry) response
      (logs ++ [RetryLog retry]).
Proof.
  intros Ht Hf Hn. simpl. rewrite Ht, Hf.
  destruct (n <=? 0)%Z eqn:Hle; [lia|]. destruct (n - 1 >? 0)%Z eqn:Hgt; [done|lia].
Qed.

Lemma retry_loop_gives_up fuel url args deadline now retry response logs d :
  transport retry url args = Rejects d →
  timer_fired deadline (now + d) = false →
  retry_loop fuel url args deadline now 1 retry response logs
  = Settled (now + d) response (S retry) (logs ++ [RetryLog retry]).
Proof. intros Ht Hf. destruct fuel; simpl; by rewrite Ht, Hf. Qed.

Lemma retry_loop_hangs fuel url args deadline now n retry response logs :
  transport retry url args = Hangs →
  retry_loop fuel url args deadline now n retry response logs = Pending (S retry) logs.
Proof. intros Ht. destruct fuel; simpl; by rewrite Ht. Qed.

(** *** The deadline *)

Lemma timer_fired_mono deadline t t' :
  timer_fired deadline t = false → t' ≤ t → timer_fired deadline t' = false.
Proof.
  unfold timer_fired. intros H Ht.
  apply orb_false_iff in H as [H1 H2]. apply Nat.ltb_ge in H1.
  apply orb_false_iff. split; [apply Nat.ltb_ge; lia|].
  destruct timer_first; [|done]. simpl in *.
  apply Nat.eqb_neq in H2. apply Nat.eqb_neq. lia.
Qed.

Lemma timer_fired_after deadline t : deadline < t → timer_fired deadline t = true.
Proof. unfold timer_fired. intros H. apply Nat.ltb_lt in H. by rewrite H. Qed.

Lemma race_lost deadline r :
  elapses_first deadline r → outcome_race deadline r = Some timeout_outcome.
Proof. destruct r; simpl; try done. intros H. by rewrite timer_fired_after. Qed.

(** [retries] is the number of attempts: a transport that rejects every
    call is called [retries] times, each failure is logged, and the driver
    gives up without a response. *)
Lemma retry_loop_exhausts k fuel url args deadline now retry response logs d :
  (∀ i, transport i url args = Rejects d) →
  k ≤ fuel →
  timer_fired deadline (now + S k * d) = false →
  retry_loop fuel url args deadline now (Z.of_nat (S k)) retry response logs
  = Settled (now + S k * d) response (retry + S k)
      (logs ++ (RetryLog <$> seq retry (S k))).
Proof.
  intros Ht. revert fuel now retry logs.
  induction k as [|k IH]; intros fuel now retry logs Hk Hd.
  - rewrite (retry_loop_gives_up fuel _ _ _ now retry response logs d (Ht _)).
    + f_equal; lia.
    + eapply timer_fired_mono; [exact Hd|lia].
  - destruct fuel as [|fuel]; [lia|].
    rewrite (retry_loop_rejects fuel _ _ _ now _ retry response logs d (Ht _));
      [|eapply timer_fired_mono; [exact Hd|simpl; lia]|lia].
    replace (Z.of_nat (S (S k)) - 1)%Z with (Z.of_nat (S k)) by lia.
    rewrite IH; [|lia|eapply timer_fired_mono; [exact Hd|simpl; lia]].
    rewrite <-app_assoc. f_equal; [simpl; lia|lia].
Qed.

(** X1.  [retries] is the number of attempts: when every attempt rejects,
    each after [d] ms and all before the timer runs, the transport primitive
    is called exactly [retries] times, every failure is logged, and the
    driver resolves with [undefined]. *)
Lemma fetchRetry_exhausts k url deadline l h o d :
  h !! l = Some o →
  retries o = Some (Z.of_nat (S k)) →
  (∀ i, transport i url (descriptor o) = Rejects d) →
  timer_fired deadline (S k * d) = false →
  (fetchRetry url deadline l h).2
  = Settled (S k * d) VUndefined (S k) (RetryLog <$> seq 0 (S k)).
Proof.
  intros Hl Hr Ht Hd. rewrite fetchRetry_spec, (deref_lookup h l o Hl). cbn [snd].
  unfold retries_or_1. rewrite Hr.
  destruct (Z.of_nat (S k) =? 0)%Z eqn:H0; [apply Z.eqb_eq in H0; lia|].
  rewrite Nat2Z.id. by rewrite (retry_loop_exhausts k (S k) _ _ _ 0 0 _ _ d Ht); [|lia|].
Qed.

Lemma fetch_at_spec url l h o :
  h !! l = Some o →
  fetch_at url l h =
    (h ++ [descriptor o],
     response ← outcome_race deadline_ms (fetchRetry (resolve_url o url) deadline_ms l h).2;
     Some (announce o ;;
           (logs_of (fetchRetry (resolve_url o url) deadline_ms l h).2, Ok tt) ;;
           parseResponse (resolve_url o url) o response)).
Proof.
  intros Hl. unfold fetch_at. rewrite (deref_lookup h l o Hl).
  rewrite fetchRetry_spec, (deref_lookup h l o Hl). simpl.
  unfold deref. by rewrite (lookup_app_l_Some _ _ _ _ Hl).
Qed.

(** *** Calls that are answered *)

Lemma build_envelope_decoded url o r a p :
  decoded o (VResponse r) = Some (VObj a p) →
  build_envelope url o (VResponse r)
  = ([], Ok (VObj a (<["response" := VResponse r]> p), VNum (status r))).
Proof.
  unfold decoded, build_envelope, read_body. simpl.
  destruct (text r) as [data|]; simpl; [|done].
  destruct (is_json o data (content_type r)); [|done]. by intros ->.
Qed.

Lemma announce_run o :
  announce o =
    ((if truthy (clear o) then [Callback "clear" VUndefined] else [])
     ++ (if truthy (progress o) then [Callback "start" VUndefined] else [])
     ++ (if truthy (log o) then [LogTrace "Fetch Request"] else []), Ok tt).
Proof.
  unfold announce. by destruct (truthy (clear o)), (truthy (progress o)), (truthy (log o)).
Qed.

Lemma normalize_run url o response :
  normalize url o response =
    match build_envelope url o response with
    | (tr0, Ok (r0, st)) =>
        match status_check o st r0 with
        | (tr1, Ok r1) =>
            match log_error o st r1 with
            | (tr2, Ok r2) => (tr0 ++ tr1 ++ (notify_feedback o st r1).1 ++ tr2, Ok (r2, st))
            | (tr2, Raise e) => (tr0 ++ tr1 ++ (notify_feedback o st r1).1 ++ tr2, Raise e)
            end
        | (tr1, Raise e) => (tr0 ++ tr1, Raise e)
        end
    | (tr0, Raise e) => (tr0, Raise e)
    end.
Proof.
  unfold normalize.
  destruct (build_envelope url o response) as [tr0 [[r0 st]|e]]; [|done].
  rewrite bind_ok. cbn beta iota.
  destruct (status_check o st r0) as [tr1 [r1|e]]; [|done].
  rewrite bind_ok, notify_feedback_run, bind_ok.
  destruct (log_error o st r1) as [tr2 [r2|e]]; simpl; by rewrite ?app_nil_r.
Qed.

Lemma log_error_clean o st resp :
  truthy (get_prop resp "error") = false →
  log_error o st resp
  = (if truthy (log o) then [LogTrace "Fetch Response"] else [], Ok resp).
Proof. unfold log_error. intros ->. simpl. by destruct (truthy (log o)). Qed.

Lemma finish_returns o st resp :
  truthy (get_prop resp "error") = false →
  is_true (raw o) = false →
  finish o st resp = annotate resp.
Proof. unfold finish. by intros -> ->. Qed.

(** A status 200 whose body is decoded to an object that does not say
    [error]: nothing is reported, and the data of the body is returned. *)
Lemma parse_decoded_200 url o r a p :
  status r = 200%Z →
  decoded o (VResponse r) = Some (VObj a p) →
  truthy (get_prop (VObj a p) "error") = false →
  is_true (raw o) = false →
  parseResponse url o (VResponse r) =
    ((if truthy (progress o) then [Callback "stop" VUndefined] else [])
     ++ (if truthy (log o) then [LogTrace "Fetch Response"] else []),
     (annotate (VObj a p)).2).
Proof.
  intros Hst Hd He Hraw. unfold parseResponse.
  assert (truthy (get_prop (VObj a (<["response" := VResponse r]> p)) "error") = false)
    as Herr.
  { rewrite get_prop_insert. by case_decide. }
  rewrite normalize_run, (build_envelope_decoded url o r a p Hd), Hst.
  change (status_check o (VNum 200) ?x) with (@pair (list event) _ [] (Ok x)).
  cbn beta iota. rewrite (log_error_clean _ _ _ Herr), notify_feedback_run, Herr.
  rewrite bind_ok. cbn beta iota. rewrite (finish_returns _ _ _ Herr Hraw).
  rewrite (annotate_frame (VObj a (<["response" := VResponse r]> p)) (VObj a p)).
  2:{ intros k Hk. rewrite get_prop_insert. case_decide; [congruence|done]. }
  rewrite annotate_silent, andb_false_r. simpl.
  by rewrite !app_nil_r.
Qed.

(** The retry driver logs its retries and notifies nobody. *)
Lemma retry_loop_logs fuel url args deadline now n retry response logs reason a :
  Callback reason a ∈ logs_of (retry_loop fuel url args deadline now n retry response logs) →
  Callback reason a ∈ logs.
Proof.
  revert now n retry response logs.
  induction fuel as [|fuel IH]; intros now n retry response logs; simpl;
    destruct (transport retry url args) as [|d|d v]; simpl; try done;
    try destruct (truthy v); simpl; try done;
    destruct (timer_fired deadline (now + d)); simpl; try done;
    destruct (n <=? 0)%Z; simpl; try done;
    destruct (n - 1 >? 0)%Z; simpl; try done;
    intros Hin; try apply IH in Hin; try (by apply elem_of_nil in Hin);
    (apply elem_of_app in Hin as [Hin|Hin];
     [done|by apply list_elem_of_singleton in Hin]).
Qed.

Lemma fetchRetry_logs url deadline l h reason a :
  Callback reason a ∉ logs_of (fetchRetry url deadline l h).2.
Proof.
  rewrite fetchRetry_spec. cbn [snd]. intros Hin%retry_loop_logs.
  by apply elem_of_nil in Hin.
Qed.


(** *** Calls that time out *)

(** C1, as the code has it.  When the timer runs strictly before the
    retry driver has a result, the race resolves with the synthetic
    timeout outcome, whatever the options and the retries left, and
    [fetch] settles once, with what the normaliser makes of that outcome:
    nothing the transport does later is part of the result. *)
Theorem deadline_settles_the_call url l h o :
  h !! l = Some o →
  elapses_first deadline_ms (fetchRetry (resolve_url o url) deadline_ms l h).2 →
  outcome_race deadline_ms (fetchRetry (resolve_url o url) deadline_ms l h).2
  = Some timeout_outcome
  ∧ (fetch url (Some l) h).2 =
      Some (announce o ;;
            (logs_of (fetchRetry (resolve_url o url) deadline_ms l h).2, Ok tt) ;;
            parseResponse (resolve_url o url) o timeout_outcome).
Proof.
  intros Hl He. apply race_lost in He. split; [done|].
  unfold fetch, or_fresh. rewrite (fetch_at_spec url l h o Hl). cbn [snd].
  by rewrite He.
Qed.

(** What the normaliser makes of the timeout outcome: the envelope of a
    status 444, with the outcome as its [response]. *)
Lemma envelope_of_timeout url o :
  envelope url o timeout_outcome
  = Some (object_of [("url", VStr url); ("response", timeout_outcome);
                     ("error", VBool true);
                     ("message", VStr "Could Not Communicate With Server");
                     ("severity", VStr "error")]).
Proof.
  unfold envelope, normalize, build_envelope. simpl.
  unfold notify_feedback, log_error. simpl.
  destruct (not_false (feedback o)), (truthy (progress o)), (not_false (log o)),
    (truthy (log o)); reflexivity.
Qed.

(** *** Retries *)

(** C2, as the code has it.  [retries] counts the attempts, not the
    repetitions: with [{retries: 3}], a transport that throws twice and
    then answers 200 with [{"data":{"ok":true}}] is called three times, and
    the call returns [{ok: true}]. *)
Theorem third_attempt_needs_retries_3 url l h d0 d1 d2 r :
  h !! l = Some (with_retries 3) →
  (∀ u a, transport 0 u a = Rejects d0) →
  (∀ u a, transport 1 u a = Rejects d1) →
  (∀ u a, transport 2 u a = Resolves d2 (VResponse r)) →
  timer_fired deadline_ms (d0 + d1 + d2) = false →
  status r = 200%Z →
  text r = Some body_ok →
  content_type r = Some "application/json" →
  JSON_parse body_ok = Some parsed_ok →
  attempts_of (fetchRetry (resolve_url (with_retries 3) url) deadline_ms l h).2 = 3
  ∧ fetch url (Some l) h
    = (h ++ [descriptor (with_retries 3)],
       Some ([RetryLog 0; RetryLog 1], Ok (plain (object_of [("ok", VBool true)])))).
Proof.
  intros Hl H0 H1 H2 Hd Hst Htext Hct Hparse.
  assert (decoded (with_retries 3) (VResponse r) = Some parsed_ok) as Hdec.
  { unfold decoded. rewrite Htext. simpl. unfold is_json. by rewrite Hct. }
  set (u := resolve_url (with_retries 3) url).
  assert ((fetchRetry u deadline_ms l h).2
          = Settled (d0 + d1 + d2) (VResponse r) 3 [RetryLog 0; RetryLog 1]) as Hr.
  { assert (timer_fired deadline_ms d0 = false) as Hd0
      by (eapply timer_fired_mono; [exact Hd|lia]).
    assert (timer_fired deadline_ms (d0 + d1) = false) as Hd1
      by (eapply timer_fired_mono; [exact Hd|lia]).
    rewrite fetchRetry_spec, (deref_lookup h l _ Hl). simpl.
    by rewrite H0, Hd0, H1, Hd1, H2. }
  split; [by rewrite Hr|].
  unfold fetch, or_fresh. rewrite (fetch_at_spec url l h _ Hl). fold u. rewrite Hr.
  simpl. rewrite Hd. simpl.
  by rewrite (parse_decoded_200 u _ r _ _ Hst Hdec eq_refl eq_refl).
Qed.

(** *** The url of the request *)

(** Lines 67-75 read [base], [nobase] and the configured prefix, and
    nothing else of the options: [noprefix] is not among them. *)
Lemma resolve_url_relative o url :
  String.prefix "http" url = false →
  resolve_url o url =
    (if given (base o) then default EmptyString (base o)
     else if negb (truthy (nobase o)) && nonempty (config_prefix Net_config)
          then config_prefix Net_config
          else location_origin) +:+ "/" +:+ url.
Proof.
  unfold resolve_url. intros ->. simpl.
  by destruct (given (base o)),
    (negb (truthy (nobase o)) && nonempty (config_prefix Net_config)).
Qed.

Lemma resolve_url_absolute o url :
  String.prefix "http" url = true → resolve_url o url = url.
Proof. unfold resolve_url. by intros ->. Qed.

(** *** The options of the caller *)

Lemma fetch_heap url l h o :
  h !! l = Some o → (fetch url (Some l) h).1 = h ++ [descriptor o].
Proof. intros Hl. unfold fetch, or_fresh. by rewrite (fetch_at_spec url l h o Hl). Qed.

(** [fetch] leaves the object it was given as it was. *)
Lemma fetch_keeps_options url l h o :
  h !! l = Some o → (fetch url (Some l) h).1 !! l = Some o.
Proof. intros Hl. rewrite (fetch_heap url l h o Hl). by apply lookup_app_l_Some. Qed.

(** [get] works on a copy and leaves the object it was given as it was. *)
Lemma get_keeps_options url l h o :
  h !! l = Some o → (get url (Some l) h).1 !! l = Some o.
Proof.
  intros Hl. unfold get, or_fresh, alloc, update. rewrite (deref_lookup h l o Hl).
  replace (alter (set_method "GET") (length h) (h ++ [o]))
    with (h ++ [set_method "GET" o]).
  2:{ replace (length h) with (length h + 0) at 1 by lia.
      by rewrite (alter_app_r (set_method "GET") h [o] 0). }
  rewrite (fetch_at_spec url (length h) _ (set_method "GET" o))
    by (by apply list_lookup_middle).
  cbn [fst]. by do 2 apply lookup_app_l_Some.
Qed.

(** [post] writes [method] into the object it was given. *)
Lemma post_sets_method url l h o :
  h !! l = Some o → (post url (Some l) h).1 !! l = Some (set_method "POST" o).
Proof.
  intros Hl. unfold post, or_fresh, update.
  assert (alter (set_method "POST") l h !! l = Some (set_method "POST" o)) as Hl'.
  { by rewrite list_lookup_alter_eq, Hl. }
  rewrite (fetch_at_spec url l _ _ Hl'). cbn [fst]. by apply lookup_app_l_Some.
Qed.

(** *** Failing calls and the status 401 *)

(** A call whose envelope has [error] set throws, unless [throw] is
    exactly [false]: the error has the message of the envelope, or the
    default one, and carries the envelope; on a 401 a [login] notification
    comes last before it. *)
Lemma failing_call_throws url o response tr resp st :
  normalize url o response = (tr, Ok (resp, st)) →
  truthy (get_prop resp "error") = true →
  not_false (throw o) = true →
  parseResponse url o response =
    (tr ++ (if loose_eq st 401 then [Callback "login" VUndefined] else []),
     Raise (NetError (js_or (get_prop resp "message") (VStr "Cannot complete operation"))
                     resp)).
Proof.
  intros Hn He Ht. unfold parseResponse. rewrite Hn, bind_ok. cbn beta iota.
  by rewrite (finish_throws o st resp He Ht).
Qed.

(** With [throw: false] the call returns the envelope, or its data as
    lines 161-175 annotate it; the only failure left is the one of
    [Object.defineProperty] on data that is not an object. *)
Lemma failing_call_quiet url o response tr resp st :
  normalize url o response = (tr, Ok (resp, st)) →
  throw o = VBool false →
  parseResponse url o response =
    (tr, if is_true (raw o) then Ok (plain resp) else (annotate resp).2).
Proof.
  intros Hn Ht. unfold parseResponse. rewrite Hn, bind_ok. cbn beta iota.
  rewrite (finish_quiet o st resp Ht).
  destruct (is_true (raw o)); simpl; [by rewrite app_nil_r|].
  by rewrite annotate_silent, app_nil_r.
Qed.

Lemma build_envelope_events url o response tr res reason args :
  build_envelope url o response = (tr, res) → Callback reason args ∉ tr.
Proof.
  unfold build_envelope, read_body.
  destruct (truthy response); [|intros [= <- _]; by intros ?%elem_of_nil].
  destruct response as [| | | | |arr p|r]; simpl;
    try (intros [= <- _]; by intros ?%elem_of_nil).
  - destruct (truthy (default VUndefined (p !! "text"))); simpl;
      intros [= <- _]; by intros ?%elem_of_nil.
  - destruct (text r) as [data|]; simpl; [|intros [= <- _]; by intros ?%elem_of_nil].
    destruct (is_json o data (content_type r)); simpl;
      [|intros [= <- _]; by intros ?%elem_of_nil].
    destruct (JSON_parse data) as [[]|]; simpl; intros [= <- _]; revert reason args;
      no_callback.
Qed.

(** X14.  On a status 401 that reaches the status check, [logout] is
    notified if and only if [nologout] is not exactly [true]. *)
Lemma unauthorized_is_notified url o response tr resp st :
  normalize url o response = (tr, Ok (resp, st)) →
  loose_eq st 401 = true →
  notified "logout" tr ↔ is_true (nologout o) = false.
Proof.
  intros (tr0 & r0 & tr1 & r1 & tr2 & Hb & Hs & Hl & ->)%normalize_inv H401.
  apply status_check_inv in Hs as [_ ->]. rewrite H401. simpl.
  apply log_error_inv in Hl as [_ Hl]. rewrite notify_feedback_run. simpl.
  split.
  - intros [args Hin]. destruct (is_true (nologout o)); [|done]. exfalso.
    apply elem_of_app in Hin as [Hin|Hin];
      [by eapply build_envelope_events|].
    simpl in Hin. apply elem_of_app in Hin as [Hin|Hin]; [|by eapply Hl].
    destruct (not_false (feedback o) && _), (truthy (progress o)); simpl in Hin;
      repeat (apply elem_of_cons in Hin as [Hin|Hin]; [discriminate|]);
      by apply elem_of_nil in Hin.
  - intros ->. exists r0. apply elem_of_app. right. apply list_elem_of_here.
Qed.

(** *** More on the retry driver *)



(** The transport primitive is called at least once and at most [retries]
    times, whatever it does and whenever the timer runs. *)
Lemma retry_loop_attempts fuel url args deadline now n retry response logs :
  (n - 1 ≤ Z.of_nat fuel)%Z →
  retry < attempts_of (retry_loop fuel url args deadline now n retry response logs)
  ∧ attempts_of (retry_loop fuel url args deadline now n retry response logs)
    ≤ retry + Z.to_nat (Z.max 1 n).
Proof.
  revert now n retry response logs.
  induction fuel as [|fuel IH]; intros now n retry response logs Hn; simpl;
    destruct (transport retry url args) as [|d|d v]; simpl; try lia;
    try destruct (truthy v); simpl; try lia;
    destruct (timer_fired deadline (now + d)); simpl; try lia;
    destruct (n <=? 0)%Z eqn:Hle; simpl; try lia;
    destruct (n - 1 >? 0)%Z eqn:Hgt; simpl; try lia;
    match goal with
    | |- context [retry_loop fuel url args deadline ?t ?m ?r ?x ?l] =>
        specialize (IH t m r x l); lia
    end.
Qed.

(** X3.  Whatever the transport does and whenever the timer runs, the
    driver calls the transport primitive at least once and at most
    [retries] times ([retries] absent, zero or negative: once). *)
Theorem attempts_within_retries url deadline l h :
  1 ≤ attempts_of (fetchRetry url deadline l h).2
  ∧ attempts_of (fetchRetry url deadline l h).2
    ≤ Z.to_nat (Z.max 1 (default 1%Z (retries (deref h l)))).
Proof.
  rewrite fetchRetry_spec. cbn [snd].
  pose proof (retry_loop_attempts (Z.to_nat (retries_or_1 (deref h l))) url
                (descriptor (deref h l)) deadline 0 (retries_or_1 (deref h l)) 0
                VUndefined []) as H.
  assert (Z.max 1 (retries_or_1 (deref h l)) = Z.max 1 (default 1%Z (retries (deref h l))))
    as <-.
  { unfold retries_or_1. destruct (retries (deref h l)) as [n|]; [|done]. simpl.
    destruct (n =? 0)%Z eqn:H0; [apply Z.eqb_eq in H0; lia|done]. }
  lia.
Qed.



(** *** Calls without a response *)

(** X8.  A response that is missing ([undefined], [null], any falsy value) is
    a status 444: the call throws the fixed message with an envelope of url,
    error, message and severity, returns that envelope ([throw: false],
    [raw: true]) or returns [undefined] ([throw: false]). *)
Theorem no_response_is_a_444 url o response :
  truthy response = false →
  (parseResponse url o response).2 =
    if not_false (throw o)
    then Raise (NetError (VStr "Could Not Communicate With Server") (failure_envelope url))
    else if is_true (raw o) then Ok (plain (failure_envelope url))
    else Ok (plain VUndefined).
Proof.
  intros Ht. unfold parseResponse, normalize, build_envelope. rewrite Ht.
  unfold notify_feedback, log_error, finish. simpl.
  destruct (not_false (feedback o)), (truthy (progress o)), (not_false (log o)),
    (truthy (log o)), (not_false (throw o)), (is_true (raw o)); reflexivity.
Qed.

(** X7.  What [parseResponse] makes of the timeout outcome, for every url and
    options: the envelope has the message of any failed request, not the
    one of the outcome, which it keeps as [response]; the call throws it,
    returns it ([raw]) or returns [undefined]. *)
Theorem timeout_is_a_444 url o :
  (parseResponse url o timeout_outcome).2 =
    if not_false (throw o)
    then Raise (NetError (VStr "Could Not Communicate With Server") (timeout_envelope url))
    else if is_true (raw o) then Ok (plain (timeout_envelope url))
    else Ok (plain VUndefined).
Proof.
  unfold parseResponse, normalize, build_envelope.
  unfold notify_feedback, log_error, finish. simpl.
  destruct (not_false (feedback o)), (truthy (progress o)), (not_false (log o)),
    (truthy (log o)), (not_false (throw o)), (is_true (raw o)); reflexivity.
Qed.

Lemma envelope_of_no_response url o response :
  truthy response = false → envelope url o response = Some (failure_envelope url).
Proof.
  intros Ht. unfold envelope, normalize, build_envelope. rewrite Ht.
  unfold notify_feedback, log_error. simpl.
  destruct (not_false (feedback o)), (truthy (progress o)), (not_false (log o)),
    (truthy (log o)); reflexivity.
Qed.

(** *** The race, seen from [fetch] *)

Lemma fetchRetry_result url deadline l h o :
  h !! l = Some o →
  (fetchRetry url deadline l h).2
  = retry_loop (Z.to_nat (retries_or_1 o)) url (descriptor o) deadline 0
      (retries_or_1 o) 0 VUndefined [].
Proof. intros Hl. by rewrite fetchRetry_spec, (deref_lookup h l o Hl). Qed.

Lemma run_then {A} (m : Run unit) (k : Run A) tr :
  m = (tr, Ok tt) → (m ;; k) = (tr ++ k.1, k.2).
Proof. by intros ->. Qed.

(** What [fetch] comes to, by the value the race resolves with. *)
Lemma fetch_run url l h o response :
  h !! l = Some o →
  outcome_race deadline_ms (fetchRetry (resolve_url o url) deadline_ms l h).2
  = Some response →
  (fetch url (Some l) h).2
  = Some ((announce o).1
          ++ logs_of (fetchRetry (resolve_url o url) deadline_ms l h).2
          ++ (parseResponse (resolve_url o url) o response).1,
          (parseResponse (resolve_url o url) o response).2).
Proof.
  intros Hl Hr. unfold fetch, or_fresh. rewrite (fetch_at_spec url l h o Hl).
  cbn [snd]. rewrite Hr. simpl. f_equal.
  rewrite (run_then (announce o) _ (announce o).1) by (by rewrite announce_run).
  by rewrite (run_then (_, Ok tt) _ _ eq_refl).
Qed.

(** X5.  When the retry driver has its result before the timer runs, [fetch]
    goes on with that result: it performs the announcements, the logs of
    the driver and then what [parseResponse] does with the result, and
    settles as [parseResponse] does. *)
Theorem answer_before_deadline_wins url l h o t v n logs :
  h !! l = Some o →
  (fetchRetry (resolve_url o url) deadline_ms l h).2 = Settled t v n logs →
  timer_fired deadline_ms t = false →
  (fetch url (Some l) h).2
  = Some ((announce o).1 ++ logs ++ (parseResponse (resolve_url o url) o v).1,
          (parseResponse (resolve_url o url) o v).2).
Proof.
  intros Hl Hr Hd.
  rewrite (fetch_run url l h o v Hl); [by rewrite Hr|].
  rewrite Hr. simpl. by rewrite Hd.
Qed.

(** The loop on a transport that rejects every call, attempt [i] after
    [delay i] ms, whatever [retries] is left: while the timer has not run,
    the driver gives up after the last attempt it is allowed, with the
    response it had. *)
Lemma retry_loop_all_reject fuel url args deadline now n retry response logs delay :
  (∀ i, transport i url args = Rejects (delay i)) →
  (n - 1 ≤ Z.of_nat fuel)%Z →
  timer_fired deadline
    (now + sum_list (delay <$> seq retry (Z.to_nat (Z.max 1 n)))) = false →
  ∃ m logs',
    retry_loop fuel url args deadline now n retry response logs
    = Settled (now + sum_list (delay <$> seq retry (Z.to_nat (Z.max 1 n))))
        response m logs'.
Proof.
  intros Ht. revert now n retry logs.
  induction fuel as [|fuel IH]; intros now n retry logs Hn Hd.
  - replace (Z.to_nat (Z.max 1 n)) with 1 in * by lia. simpl in *.
    rewrite Nat.add_0_r in *. rewrite Ht, Hd.
    destruct (n <=? 0)%Z; [by eexists _, _|].
    destruct (n - 1 >? 0)%Z eqn:Hgt; [lia|by eexists _, _].
  - destruct (decide (1 < n)%Z) as [H1|H1].
    + replace (Z.to_nat (Z.max 1 n)) with (S (Z.to_nat (Z.max 1 (n - 1)))) in * by lia.
      cbn [seq fmap list_fmap sum_list] in *. unfold id in *. rewrite Nat.add_assoc in *.
      rewrite (retry_loop_rejects fuel _ _ _ now n retry response logs (delay retry) (Ht _));
        [|eapply timer_fired_mono; [exact Hd|lia]|done].
      apply IH; [lia|done].
    + replace (Z.to_nat (Z.max 1 n)) with 1 in * by lia. simpl in *.
      rewrite Nat.add_0_r in *. rewrite Ht, Hd.
      destruct (n <=? 0)%Z; [by eexists _, _|].
      destruct (n - 1 >? 0)%Z eqn:Hgt; [lia|by eexists _, _].
Qed.

(** X6.  When every attempt rejects, attempt [i] after [delay i] ms, and the
    last attempt the driver is allowed has failed before the timer runs,
    [fetch] throws, unless [throw] is [false], the network error of a
    status 444: the fixed message, and an envelope with the url and no
    response.  This holds whatever [retries] is given, and when none is. *)
Theorem exhausted_retries_fail_the_call url l h o delay :
  h !! l = Some o →
  (∀ i, transport i (resolve_url o url) (descriptor o) = Rejects (delay i)) →
  timer_fired deadline_ms (elapsed delay (attempts_allowed o)) = false →
  not_false (throw o) = true →
  ∃ tr, (fetch url (Some l) h).2
        = Some (tr, Raise (NetError (VStr "Could Not Communicate With Server")
                             (failure_envelope (resolve_url o url)))).
Proof.
  intros Hl Ht Hd Hthrow.
  destruct (retry_loop_all_reject (Z.to_nat (retries_or_1 o)) (resolve_url o url)
              (descriptor o) deadline_ms 0 (retries_or_1 o) 0 VUndefined [] delay Ht)
    as (m & logs & Hfr); [lia|exact Hd|].
  rewrite <-(fetchRetry_result _ _ l h o Hl) in Hfr.
  unfold elapsed, attempts_allowed in Hd.
  pose proof (envelope_of_no_response (resolve_url o url) o VUndefined eq_refl) as He.
  apply envelope_inv in He as [tr He].
  eexists. rewrite (fetch_run url l h o VUndefined Hl);
    [|by rewrite Hfr; cbn [outcome_race]; change (0 + ?x) with x; rewrite Hd].
  rewrite (failing_call_throws _ o VUndefined tr _ _ He); [reflexivity|reflexivity|done].
Qed.

(** *** More on the options of the caller *)





(** X21.  [get] settles as [fetch] does on the same options with [method]
    set to [GET], whatever method the caller had put there. *)
Theorem get_is_fetch_with_GET url l h o :
  h !! l = Some o →
  (get url (Some l) h).2 = (fetch url (Some l) (<[l := set_method "GET" o]> h)).2.
Proof.
  intros Hl. unfold get, fetch, or_fresh, alloc, update. rewrite (deref_lookup h l o Hl).
  replace (alter (set_method "GET") (length h) (h ++ [o]))
    with (h ++ [set_method "GET" o]).
  2:{ replace (length h) with (length h + 0) at 1 by lia.
      by rewrite (alter_app_r (set_method "GET") h [o] 0). }
  assert (<[l := set_method "GET" o]> h !! l = Some (set_method "GET" o)) as Hl'.
  { apply list_lookup_insert_eq. by eapply lookup_lt_Some. }
  rewrite (fetch_at_spec url (length h) _ (set_method "GET" o))
    by (by apply list_lookup_middle).
  rewrite (fetch_at_spec url l _ _ Hl'). cbn [snd].
  rewrite (fetchRetry_result _ _ (length h) _ (set_method "GET" o))
    by (by apply list_lookup_middle).
  by rewrite (fetchRetry_result _ _ l _ _ Hl').
Qed.

(** *** Which notifications a call makes *)

Lemma status_check_run o st resp :
  status_check o st resp =
    (if loose_eq st 401 && negb (is_true (nologout o))
     then [Callback "logout" resp] else [],
     Ok (if loose_eq st 401 || loose_eq st 200 then resp
         else object_assign resp [("error", VBool true);
                                  ("message", VStr "Could Not Communicate With Server");
                                  ("severity", VStr "error")])).
Proof.
  unfold status_check. destruct (loose_eq st 401); simpl.
  - by destruct (is_true (nologout o)).
  - by destruct (loose_eq st 200).
Qed.

Lemma log_error_events o st resp tr res reason args :
  log_error o st resp = (tr, res) → Callback reason args ∉ tr.
Proof.
  unfold log_error. destruct (truthy (get_prop resp "error") && not_false (log o)).
  - destruct resp; simpl; try (intros [= <- _]; by intros ?%elem_of_nil).
    destruct (loose_eq st 401), (truthy (log o)); simpl; intros [= <- _];
      revert reason args; no_callback.
  - destruct (truthy (log o)); simpl; intros [= <- _]; revert reason args; no_callback.
Qed.

Lemma finish_events o st resp reason args :
  Callback reason args ∈ (finish o st resp).1 →
  reason = "login" ∧ loose_eq st 401 = true ∧ not_false (throw o) = true
  ∧ ∃ m, (finish o st resp).2 = Raise (NetError m resp).
Proof.
  unfold finish.
  destruct (truthy (get_prop resp "error")), (not_false (throw o)); simpl;
    try (destruct (is_true (raw o)); [by intros ?%elem_of_nil|];
         rewrite annotate_silent; by intros ?%elem_of_nil).
  destruct (loose_eq st 401); simpl; [|by intros ?%elem_of_nil].
  intros [= -> _]%list_elem_of_singleton. eauto.
Qed.

(** Every notification of [parseResponse], with what made it. *)
Lemma parseResponse_events url o response reason args :
  Callback reason args ∈ (parseResponse url o response).1 →
  (reason = "logout" ∧ loose_eq (status_of response) 401 = true
   ∧ is_true (nologout o) = false)
  ∨ (reason = "feedback" ∧ not_false (feedback o) = true)
  ∨ (reason = "stop" ∧ truthy (progress o) = true)
  ∨ (reason = "login" ∧ loose_eq (status_of response) 401 = true
     ∧ not_false (throw o) = true
     ∧ ∃ m p, (parseResponse url o response).2 = Raise (NetError m p)).
Proof.
  unfold parseResponse. rewrite normalize_run.
  destruct (build_envelope url o response) as [tr0 [[r0 st]|e]] eqn:Hb;
    [|intros Hin; by eapply build_envelope_events in Hin].
  pose proof (build_envelope_events url o response tr0 _ reason args Hb) as H0.
  apply build_envelope_inv in Hb as (-> & _ & _).
  rewrite status_check_run, notify_feedback_run. cbn [fst].
  set (r1 := if loose_eq (status_of response) 401 || _ then r0 else _).
  destruct (log_error o (status_of response) r1) as [tr2 [r2|e]] eqn:Hl;
    pose proof (log_error_events _ _ _ _ _ reason args Hl) as H2.
  - rewrite bind_ok. cbn beta iota. cbn [fst snd].
    rewrite !elem_of_app. intros [[Hin|[Hin|[[Hin|Hin]|Hin]]]|Hin]; try done.
    + left. destruct (loose_eq (status_of response) 401); [|by apply elem_of_nil in Hin].
      destruct (is_true (nologout o)); [by apply elem_of_nil in Hin|].
      apply list_elem_of_singleton in Hin as [= -> _]. done.
    + right. left. destruct (not_false (feedback o)); [|by apply elem_of_nil in Hin].
      simpl in Hin.
      match type of Hin with context [if ?c then _ else _] => destruct c end;
        [|by apply elem_of_nil in Hin].
      apply list_elem_of_singleton in Hin as [= -> _]. done.
    + right. right. left. destruct (truthy (progress o)); [|by apply elem_of_nil in Hin].
      apply list_elem_of_singleton in Hin as [= -> _]. done.
    + right. right. right. apply finish_events in Hin as (-> & H401 & Ht & m & Hm).
      eauto 7.
  - cbn [fst snd]. unfold mbind, Run_bind. cbn [fst snd].
    rewrite !elem_of_app. intros [Hin|[Hin|[[Hin|Hin]|Hin]]]; try done.
    + left. destruct (loose_eq (status_of response) 401); [|by apply elem_of_nil in Hin].
      destruct (is_true (nologout o)); [by apply elem_of_nil in Hin|].
      apply list_elem_of_singleton in Hin as [= -> _]. done.
    + right. left. destruct (not_false (feedback o)); [|by apply elem_of_nil in Hin].
      simpl in Hin.
      match type of Hin with context [if ?c then _ else _] => destruct c end;
        [|by apply elem_of_nil in Hin].
      apply list_elem_of_singleton in Hin as [= -> _]. done.
    + right. right. left. destruct (truthy (progress o)); [|by apply elem_of_nil in Hin].
      apply list_elem_of_singleton in Hin as [= -> _]. done.
Qed.

Lemma announce_events o reason args :
  Callback reason args ∈ (announce o).1 →
  (reason = "clear" ∧ truthy (clear o) = true)
  ∨ (reason = "start" ∧ truthy (progress o) = true).
Proof.
  rewrite announce_run. cbn [fst].
  destruct (truthy (clear o)), (truthy (progress o)), (truthy (log o)); simpl;
    intros Hin;
    repeat (apply elem_of_cons in Hin as [Hin|Hin];
            [try discriminate; injection Hin as -> _; by (left + right)|]);
    by apply elem_of_nil in Hin.
Qed.

(** Every notification of [fetch] is one of [announce] or one of
    [parseResponse] on the value the race resolved with. *)
Lemma fetch_events url l h o tr res reason args :
  h !! l = Some o →
  (fetch url (Some l) h).2 = Some (tr, res) →
  Callback reason args ∈ tr →
  Callback reason args ∈ (announce o).1
  ∨ ∃ response,
      res = (parseResponse (resolve_url o url) o response).2
      ∧ Callback reason args ∈ (parseResponse (resolve_url o url) o response).1.
Proof.
  intros Hl Hf Hin.
  destruct (outcome_race deadline_ms (fetchRetry (resolve_url o url) deadline_ms l h).2)
    as [response|] eqn:Hr.
  - rewrite (fetch_run url l h o response Hl Hr) in Hf. injection Hf as <- <-.
    apply elem_of_app in Hin as [Hin|Hin]; [by left|].
    apply elem_of_app in Hin as [Hin|Hin]; [by apply fetchRetry_logs in Hin|].
    right. by exists response.
  - unfold fetch, or_fresh in Hf. rewrite (fetch_at_spec url l h o Hl) in Hf.
    cbn [snd] in Hf. by rewrite Hr in Hf.
Qed.

(** X17.  With [feedback: false], [fetch] never notifies [feedback], however
    the call ends. *)
Theorem feedback_false_is_silent url l h o tr res :
  h !! l = Some o →
  feedback o = VBool false →
  (fetch url (Some l) h).2 = Some (tr, res) →
  ¬ notified "feedback" tr.
Proof.
  intros Hl Hfb Hf [args Hin].
  destruct (fetch_events url l h o tr res _ _ Hl Hf Hin) as [Ha|(response & _ & Hp)].
  - by apply announce_events in Ha as [[? _]|[? _]].
  - apply parseResponse_events in Hp as [(? & _)|[(_ & H)|[(? & _)|(? & _)]]]; try done.
    by rewrite Hfb in H.
Qed.

(** X15.  [login] is notified only for a status 401, with [throw] not
    [false], on a call that throws the network error. *)
Theorem login_only_on_a_401_that_throws url o response :
  notified "login" (parseResponse url o response).1 →
  loose_eq (status_of response) 401 = true
  ∧ not_false (throw o) = true
  ∧ ∃ m p, (parseResponse url o response).2 = Raise (NetError m p).
Proof.
  intros [args Hin].
  by apply parseResponse_events in Hin as [(? & _)|[(? & _)|[(? & _)|(_ & H)]]].
Qed.

Lemma build_envelope_raises url o response tr e :
  build_envelope url o response = (tr, Raise e) → e = TypeError.
Proof.
  unfold build_envelope, read_body.
  destruct (truthy response); [|discriminate].
  destruct response as [| | | | |arr p|r]; simpl; try (by intros [= _ <-]).
  - destruct (truthy (default VUndefined (p !! "text"))); simpl;
      by intros [= _ <-].
  - destruct (text r) as [data|]; simpl; [|discriminate].
    destruct (is_json o data (content_type r)); simpl; [|discriminate].
    destruct (JSON_parse data) as [[]|]; simpl; by intros [= _ <-].
Qed.

Lemma log_error_raises o st resp tr e :
  log_error o st resp = (tr, Raise e) → e = TypeError.
Proof.
  unfold log_error. destruct (truthy (get_prop resp "error") && not_false (log o)).
  - destruct resp; simpl; try (by intros [= _ <-]).
    destruct (loose_eq st 401), (truthy (log o)); discriminate.
  - destruct (truthy (log o)); discriminate.
Qed.

(** [stop] is notified on every call that gets as far as an envelope. *)
Lemma parseResponse_stops url o response :
  truthy (progress o) = true →
  (parseResponse url o response).2 ≠ Raise TypeError →
  Callback "stop" VUndefined ∈ (parseResponse url o response).1.
Proof.
  intros Hp. unfold parseResponse. rewrite normalize_run.
  destruct (build_envelope url o response) as [tr0 [[r0 st]|e]] eqn:Hb.
  2:{ apply build_envelope_raises in Hb as ->. by intros []. }
  rewrite status_check_run, notify_feedback_run, Hp. cbn [fst].
  match goal with |- context [log_error o st ?r] => set (r1 := r) end.
  destruct (log_error o st r1) as [tr2 [r2|e]] eqn:Hl.
  - intros _. rewrite bind_ok. cbn [fst]. rewrite !elem_of_app.
    left. right. right. left. right. apply list_elem_of_here.
  - apply log_error_raises in Hl as ->. by intros [].
Qed.

(** X18.  With [progress] set, every call of [fetch] that returns or throws
    the network error has notified [start] and, later, [stop]. *)
Theorem progress_is_bracketed url l h o tr res :
  h !! l = Some o →
  truthy (progress o) = true →
  (fetch url (Some l) h).2 = Some (tr, res) →
  res ≠ Raise TypeError →
  ∃ l1 l2 l3,
    tr = l1 ++ Callback "start" VUndefined :: l2 ++ Callback "stop" VUndefined :: l3.
Proof.
  intros Hl Hp Hf Hres.
  destruct (outcome_race deadline_ms (fetchRetry (resolve_url o url) deadline_ms l h).2)
    as [response|] eqn:Hr.
  2:{ unfold fetch, or_fresh in Hf. rewrite (fetch_at_spec url l h o Hl) in Hf.
      cbn [snd] in Hf. by rewrite Hr in Hf. }
  rewrite (fetch_run url l h o response Hl Hr) in Hf. injection Hf as <- <-.
  apply (parseResponse_stops _ o response Hp) in Hres.
  apply list_elem_of_split in Hres as (p1 & p2 & ->).
  assert (Callback "start" VUndefined ∈ (announce o).1) as Ha.
  { rewrite announce_run, Hp. cbn [fst]. rewrite !elem_of_app.
    right. left. apply list_elem_of_here. }
  apply list_elem_of_split in Ha as (a1 & a2 & ->).
  exists a1, (a2 ++ logs_of (fetchRetry (resolve_url o url) deadline_ms l h).2 ++ p1), p2.
  by rewrite <-!app_assoc.
Qed.

(** X16.  Every call that has an envelope and a status other than 200
    notifies [feedback], the 401 included, unless [feedback] is [false]. *)
Theorem every_other_status_is_fed_back url o response resp :
  envelope url o response = Some resp →
  loose_eq (status_of response) 200 = false →
  not_false (feedback o) = true →
  notified "feedback" (parseResponse url o response).1.
Proof.
  intros [tr Hn]%envelope_inv H200 Hfb. unfold parseResponse.
  rewrite Hn, bind_ok. cbn [fst].
  apply normalize_inv in Hn as (tr0 & r0 & tr1 & r1 & tr2 & _ & _ & _ & ->).
  rewrite notify_feedback_run, Hfb, H200. cbn [fst negb orb andb].
  exists r1. rewrite !elem_of_app. left. right. right. left. left.
  apply list_elem_of_here.
Qed.

(** *** More members of the envelope *)

Lemma build_envelope_response url o response tr resp st :
  build_envelope url o response = (tr, Ok (resp, st)) →
  truthy response = true →
  get_prop resp "response" = response.
Proof.
  unfold build_envelope. intros H Ht. rewrite Ht in H.
  apply bind_ok_inv in H as (tr1 & r1 & tr2 & _ & H & _).
  apply bind_ok_inv in H as (tr3 & r2 & tr4 & Hs & [= <- <- <-] & _).
  apply set_prop_inv in Hs as (a & p & -> & -> & _).
  rewrite get_prop_insert. by case_decide.
Qed.

(** X13.  The [response] member of the envelope is the value the call was
    given as response, whatever the body said; without a response the
    envelope has no such member. *)
Theorem envelope_carries_the_raw_outcome url o response resp :
  envelope url o response = Some resp →
  get_prop resp "response" = if truthy response then response else VUndefined.
Proof.
  destruct (truthy response) eqn:Ht.
  - intros [tr Hn]%envelope_inv.
    apply normalize_inv in Hn as (tr0 & r0 & tr1 & r1 & tr2 & Hb & Hs & Hl & _).
    apply log_error_inv in Hl as [Hl _]. rewrite Hl by done.
    apply status_check_inv in Hs as [-> _].
    transitivity (get_prop r0 "response"); [|by eapply build_envelope_response].
    case_match; [done|]. apply object_assign_frame. simpl. intros Hin.
    repeat (apply elem_of_cons in Hin as [Hin|Hin]; [discriminate|]).
    by apply elem_of_nil in Hin.
  - rewrite (envelope_of_no_response url o response Ht). by intros [= <-].
Qed.

Lemma log_error_message o st resp tr resp' :
  log_error o st resp = (tr, Ok resp') →
  truthy (get_prop resp "message") = true →
  get_prop resp' "message" = get_prop resp "message".
Proof.
  unfold log_error. intros H Hm.
  destruct (truthy (get_prop resp "error") && not_false (log o)).
  - destruct resp as [| | | | |a p|]; try discriminate.
    assert (js_or (get_prop (VObj a p) "message") (feedback_error (VObj a p))
            = get_prop (VObj a p) "message") as Hor by (unfold js_or; by rewrite Hm).
    simpl in H. destruct (loose_eq st 401), (truthy (log o)); simpl in H;
      injection H as <- <-; rewrite get_prop_insert; by case_decide.
  - destruct (truthy (log o)); simpl in H; by injection H as <- <-.
Qed.

(** X11.  For a status other than 200 and 401, and [throw] not [false], the
    call throws the message 'Could Not Communicate With Server' with the
    envelope, whose severity is 'error': what the body said of message and
    severity is overwritten. *)
Theorem other_statuses_throw_the_fixed_message url o response resp :
  envelope url o response = Some resp →
  loose_eq (status_of response) 200 = false →
  loose_eq (status_of response) 401 = false →
  not_false (throw o) = true →
  (parseResponse url o response).2
  = Raise (NetError (VStr "Could Not Communicate With Server") resp)
  ∧ get_prop resp "severity" = VStr "error".
Proof.
  intros [tr Hn]%envelope_inv H200 H401 Ht.
  pose proof Hn as (tr0 & r0 & tr1 & r1 & tr2 & Hb & Hs & Hl & _)%normalize_inv.
  apply status_check_inv in Hs as [-> _]. rewrite H200, H401 in Hl. simpl in Hl.
  apply build_envelope_inv in Hb as (_ & (a & p & ->) & _).
  pose proof (log_error_inv _ _ _ _ _ Hl) as [Hfr _].
  apply log_error_message in Hl; [|by simpl; rewrite lookup_insert_ne, lookup_insert_eq].
  rewrite (failing_call_throws url o response tr resp _ Hn); [| |done].
  - rewrite Hl, (Hfr "severity") by done. simpl.
    rewrite lookup_insert_ne, lookup_insert_eq by done. by rewrite lookup_insert_eq.
  - rewrite (Hfr "error") by done. simpl.
    by rewrite !lookup_insert_ne, lookup_insert_eq by done.
Qed.

(** *** Bodies that are not decoded *)

(** X9.  A status 200 whose JSON body does not parse is not an error: the
    body is printed and dropped, nothing is fed back, and the call returns
    [undefined]. *)
Theorem undecodable_body_is_dropped url o r data :
  status r = 200%Z →
  text r = Some data →
  is_json o data (content_type r) = true →
  JSON_parse data = None →
  is_true (raw o) = false →
  parseResponse url o (VResponse r) =
    ([Printed "CANNOT DECODE" data]
     ++ (if truthy (progress o) then [Callback "stop" VUndefined] else [])
     ++ (if truthy (log o) then [LogTrace "Fetch Response"] else []),
     Ok (plain VUndefined)).
Proof.
  intros Hst Htext Hjson Hparse Hraw.
  unfold parseResponse, normalize, build_envelope, read_body. cbn [truthy].
  rewrite Htext, Hjson, Hparse.
  unfold notify_feedback, log_error, finish. simpl. rewrite Hst, Hraw. simpl.
  destruct (not_false (feedback o)), (truthy (progress o)), (not_false (log o)),
    (truthy (log o)), (not_false (throw o)); reflexivity.
Qed.

(** X10.  A status 200 whose body is not taken for JSON (another content
    type, no content type, an empty body, or [noparse]) returns the body as
    the string it is, the empty string included. *)
Theorem plain_body_is_returned_as_text url o r data :
  status r = 200%Z →
  text r = Some data →
  is_json o data (content_type r) = false →
  is_true (raw o) = false →
  parseResponse url o (VResponse r) =
    ((if truthy (progress o) then [Callback "stop" VUndefined] else [])
     ++ (if truthy (log o) then [LogTrace "Fetch Response"] else []),
     Ok (plain (VStr data))).
Proof.
  intros Hst Htext Hjson Hraw.
  unfold parseResponse, normalize, build_envelope, read_body. cbn [truthy].
  rewrite Htext, Hjson.
  unfold notify_feedback, log_error, finish, annotate. simpl. rewrite Hst, Hraw. simpl.
  destruct (not_false (feedback o)), (truthy (progress o)), (not_false (log o)),
    (truthy (log o)), (not_false (throw o)), data; reflexivity.
Qed.

(** *** The message of the error *)

Lemma log_error_fills o st a p :
  truthy (get_prop (VObj a p) "error") = true →
  not_false (log o) = true →
  ∃ tr, log_error o st (VObj a p)
        = (tr, Ok (VObj a (<["message" := js_or (get_prop (VObj a p) "message")
                                              (feedback_error (VObj a p))]> p))).
Proof.
  intros He Hl. unfold log_error. rewrite He, Hl. simpl.
  destruct (loose_eq st 401), (truthy (log o)); by eexists.
Qed.

Lemma log_error_skips o st resp :
  log o = VBool false → log_error o st resp = ([], Ok resp).
Proof. intros Hl. unfold log_error. rewrite Hl. simpl. by rewrite andb_false_r. Qed.

(** X12.  When the body of a 200 or 401 says [error] without a message, the
    message thrown is [feedback.error] of the body, but only if [log] is
    not [false]: with [log: false] it is 'Cannot complete operation'. *)
Theorem message_falls_back_only_when_logging url o r a p :
  status r = 200%Z ∨ status r = 401%Z →
  decoded o (VResponse r) = Some (VObj a p) →
  truthy (get_prop (VObj a p) "error") = true →
  truthy (get_prop (VObj a p) "message") = false →
  not_false (throw o) = true →
  ∃ env,
    (parseResponse url o (VResponse r)).2
    = Raise (NetError
               (if not_false (log o)
                then js_or (feedback_error (VObj a p)) (VStr "Cannot complete operation")
                else VStr "Cannot complete operation") env).
Proof.
  intros Hst Hd He Hm Ht. unfold parseResponse.
  rewrite normalize_run, (build_envelope_decoded url o r a p Hd), status_check_run.
  assert (loose_eq (VNum (status r)) 401 || loose_eq (VNum (status r)) 200 = true) as ->.
  { by destruct Hst as [-> | ->]. }
  set (p0 := <["response" := VResponse r]> p).
  assert (∀ k, k ≠ "response" → get_prop (VObj a p0) k = get_prop (VObj a p) k) as Hfr.
  { intros k Hk. unfold p0. rewrite get_prop_insert. case_decide; [congruence|done]. }
  assert (feedback_error (VObj a p0) = feedback_error (VObj a p)) as Hfe.
  { unfold feedback_error. by rewrite !Hfr. }
  destruct (not_false (log o)) eqn:Hlog.
  - destruct (log_error_fills o (VNum (status r)) a p0) as [tr2 ->];
      [by rewrite Hfr, He|done|].
    rewrite bind_ok. cbn beta iota. cbn [snd].
    rewrite finish_throws; [| |done].
    + eexists. cbn [snd]. do 2 f_equal. rewrite get_prop_insert, decide_True by done.
      rewrite Hfr, Hfe by done. unfold js_or at 2. by rewrite Hm.
    + rewrite get_prop_insert. case_decide; [done|]. by rewrite Hfr, He.
  - assert (log o = VBool false) as Hl by (by destruct (log o) as [| |[]| | | |]).
    rewrite (log_error_skips o _ _ Hl), bind_ok. cbn beta iota. cbn [snd].
    rewrite finish_throws; [|by rewrite Hfr, He|done].
    eexists. cbn [snd]. do 2 f_equal. rewrite Hfr by done. unfold js_or. by rewrite Hm.
Qed.

(** *** The request descriptor *)

(** X22.  The request descriptor is a fresh object: its credentials are
    [include] whatever the caller asked for, its method and mode are the
    caller's unless falsy (then [POST] and [cors]), body, retries and base
    are the caller's, and the objects that were there are left alone. *)
Theorem descriptor_of_every_attempt l h :
  let o := deref h l in
  let d := deref (request_args l h).2 (request_args l h).1 in
  credentials d = Some "include"
  ∧ method d = (if given (method o) then method o else Some "POST")
  ∧ mode d = (if given (mode o) then mode o else Some "cors")
  ∧ (body d, retries d, base d) = (body o, retries o, base o)
  ∧ take (length h) (request_args l h).2 = h.
Proof.
  intros o d.
  assert (d = descriptor o) as ->.
  { unfold d, o. rewrite request_args_spec. cbn [fst snd]. unfold deref at 1.
    by rewrite (list_lookup_middle h [] _ (length h)). }
  rewrite request_args_spec. cbn [snd]. unfold descriptor.
  destruct o as [? ? ? ? [m|] ? ? ? ? ? ? ? ? ? [md|] ?]; cbn;
    repeat split; try apply take_app_length;
    repeat match goal with |- context [nonempty ?x] => destruct (nonempty x) end;
    done.
Qed.

End Environment.

(** ** The properties on sample calls *)

Lemma envelope_url_witness :
  ∃ resp, envelope sample_parse "https://app.example.com/items" no_options VUndefined
          = Some resp
          ∧ get_prop resp "url" = VStr "https://app.example.com/items".
Proof.
  eexists. split; [vm_compute; reflexivity|].
  apply (envelope_url sample_parse "https://app.example.com/items" no_options VUndefined).
  vm_compute; reflexivity.
Defined.

(** C10 fails where the body is decoded: the body [{"data":{"ok":true}}]
    becomes the envelope, and that has no [url]. *)
Lemma decoded_envelope_has_no_url :
  ∃ resp, envelope sample_parse "https://app.example.com/items" no_options
            (VResponse (json_response 200 body_ok)) = Some resp
          ∧ get_prop resp "url" = VUndefined
          ∧ get_prop resp "url" ≠ VStr "https://app.example.com/items".
Proof.
  eexists. split; [vm_compute; reflexivity|]. split; [vm_compute; reflexivity|].
  vm_compute. discriminate.
Qed.

Lemma envelope_error_witness :
  ∃ resp, envelope sample_parse "https://app.example.com/items" no_options VUndefined
          = Some resp
          ∧ get_prop resp "error" = VBool true.
Proof.
  eexists. split; [vm_compute; reflexivity|].
  apply (envelope_error sample_parse "https://app.example.com/items" no_options VUndefined).
  vm_compute; reflexivity.
Defined.

(** C3 fails on a status 200 whose body says [{"error":true}]: the
    envelope has [error === true]. *)
Lemma status_200_envelope_with_error :
  ∃ resp, envelope sample_parse "https://app.example.com/items" no_options
            (VResponse (json_response 200 body_error)) = Some resp
          ∧ status_of (VResponse (json_response 200 body_error)) = VNum 200
          ∧ get_prop resp "error" = VBool true.
Proof.
  eexists. split; [vm_compute; reflexivity|]. split; vm_compute; reflexivity.
Qed.



(** C4 at a status 500 whose body is [{"data":"abc","schema":"s"}], with
    [throw: false]: the envelope has [error] set, and the call raises a
    TypeError where it attaches [_schema_] to the string. *)
Lemma throw_false_still_raises :
  (∃ resp, envelope sample_parse "https://app.example.com/items"
             (with_throw (VBool false)) (VResponse (json_response 500 body_text_schema))
           = Some resp
           ∧ get_prop resp "error" = VBool true)
  ∧ (parseResponse sample_parse "https://app.example.com/items"
       (with_throw (VBool false)) (VResponse (json_response 500 body_text_schema))).2
    = Raise TypeError.
Proof.
  split; [eexists; split; vm_compute; reflexivity|]. vm_compute; reflexivity.
Qed.

(** C6 at a status 401 whose body is [null]: the call raises a TypeError
    where it stores the response in the envelope, and notifies nobody. *)
Lemma status_401_without_logout :
  parseResponse sample_parse "https://app.example.com/items" no_options
    (VResponse (json_response 401 "null"))
  = ([], Raise TypeError).
Proof. vm_compute; reflexivity. Qed.



Lemma deadline_settles_the_call_witness :
  outcome_race false (deadline_ms one_second)
    (fetchRetry late false (resolve_url one_second "https://app.example.com" no_options "items")
       (deadline_ms one_second) 0 [no_options]).2
  = Some timeout_outcome
  ∧ (fetch sample_parse late one_second "https://app.example.com" false "items"
       (Some 0) [no_options]).2
    = Some (announce no_options ;;
            (logs_of (fetchRetry late false
                        (resolve_url one_second "https://app.example.com" no_options "items")
                        (deadline_ms one_second) 0 [no_options]).2, Ok tt) ;;
            parseResponse sample_parse
              (resolve_url one_second "https://app.example.com" no_options "items")
              no_options timeout_outcome).
Proof.
  apply (deadline_settles_the_call sample_parse late one_second "https://app.example.com"
           false "items" 0 [no_options] no_options); [reflexivity|].
  unfold elapses_first. simpl. unfold deadline_ms, http_seconds. simpl. lia.
Defined.

(** C1 fails on every call that times out.  Here the transport answers
    after 1.5 s and the timeout is 1 s: the race is won by the timer, but
    [fetch] does not resolve with the timeout outcome.  By default it
    throws, with the message of a status 444; with [raw: true] and
    [throw: false] it returns the envelope, with the outcome as its
    [response]. *)
Lemma timed_out_call_is_normalised :
  elapses_first (deadline_ms one_second)
    (fetchRetry late false (resolve_url one_second "https://app.example.com" no_options "items")
       (deadline_ms one_second) 0 [no_options]).2
  ∧ (∃ env, (fetch sample_parse late one_second "https://app.example.com" false "items"
               (Some 0) [no_options]).2
            = Some ([Callback "feedback" env;
                     ConsoleLog (VStr "Could Not Communicate With Server")],
                    Raise (NetError (VStr "Could Not Communicate With Server") env))
            ∧ get_prop env "response" = timeout_outcome)
  ∧ (∃ tr env, (fetch sample_parse late one_second "https://app.example.com" false "items"
                  (Some 0) [raw_and_quiet]).2
               = Some (tr, Ok (plain env))
               ∧ env ≠ timeout_outcome
               ∧ get_prop env "message" = VStr "Could Not Communicate With Server"
               ∧ get_prop env "response" = timeout_outcome).
Proof.
  split; [unfold elapses_first; simpl; unfold deadline_ms, http_seconds; simpl; lia|].
  split.
  - eexists. split; vm_compute; reflexivity.
  - eexists _, _. split; [vm_compute; reflexivity|].
    split; [vm_compute; discriminate|]. split; vm_compute; reflexivity.
Qed.

Lemma third_attempt_needs_retries_3_witness :
  attempts_of (fetchRetry third_time_lucky false
                 (resolve_url default_config "https://app.example.com" (with_retries 3) "items")
                 (deadline_ms default_config) 0 [with_retries 3]).2 = 3
  ∧ fetch sample_parse third_time_lucky default_config "https://app.example.com" false
      "items" (Some 0) [with_retries 3]
    = ([with_retries 3] ++ [descriptor (with_retries 3)],
       Some ([RetryLog 0; RetryLog 1], Ok (plain (object_of [("ok", VBool true)])))).
Proof.
  apply (third_attempt_needs_retries_3 sample_parse third_time_lucky default_config
           "https://app.example.com" false "items" 0 [with_retries 3] 10 10 10
           (json_response 200 body_ok));
    try (intros; reflexivity); vm_compute; reflexivity.
Defined.

(** C2 fails as stated: with [{retries: 2}] the transport is called twice,
    the answer of the third attempt is never asked for, and the call
    throws. *)
Lemma retries_2_gives_two_attempts :
  attempts_of (fetchRetry third_time_lucky false
                 (resolve_url default_config "https://app.example.com" (with_retries 2) "items")
                 (deadline_ms default_config) 0 [with_retries 2]).2 = 2
  ∧ ∃ env, (fetch sample_parse third_time_lucky default_config "https://app.example.com"
              false "items" (Some 0) [with_retries 2]).2
           = Some ([RetryLog 0; RetryLog 1; Callback "feedback" env;
                    ConsoleLog (VStr "Could Not Communicate With Server")],
                   Raise (NetError (VStr "Could Not Communicate With Server") env)).
Proof. split; [vm_compute; reflexivity|]. eexists. vm_compute; reflexivity. Qed.

(** C7 at [{noprefix: true}] with a configured prefix: the prefix is
    prepended all the same, where the origin should have been. *)
Lemma noprefix_keeps_the_prefix :
  resolve_url api_config "https://app.example.com" (with_noprefix (VBool true)) "items"
  = "https://api.example.com/items"
  ∧ resolve_url api_config "https://app.example.com" (with_noprefix (VBool true)) "items"
    ≠ "https://app.example.com/items".
Proof. split; [vm_compute; reflexivity|vm_compute; discriminate]. Qed.

(** C8 at [post]: the object of the caller, [{}] before the call, has a
    [method] afterwards. *)
Lemma post_changes_the_options_of_the_caller :
  [no_options] !! 0 = Some no_options
  ∧ (post sample_parse silent default_config "https://app.example.com" false "items"
       (Some 0) [no_options]).1 !! 0
    = Some (set_method "POST" no_options)
  ∧ set_method "POST" no_options ≠ no_options.
Proof. split; [reflexivity|]. split; [vm_compute; reflexivity|]. discriminate. Qed.

(** ** The further properties on sample calls *)

Lemma fetchRetry_exhausts_witness :
  (fetchRetry (always_fails 10) false "items" 1000 0 [with_retries 2]).2
  = Settled 20 VUndefined 2 [RetryLog 0; RetryLog 1].
Proof.
  apply (fetchRetry_exhausts (always_fails 10) false 1 "items" 1000 0 [with_retries 2]
           (with_retries 2) 10);
    [reflexivity|reflexivity|intros; reflexivity|vm_compute; reflexivity].
Defined.



Lemma answer_before_deadline_wins_witness :
  (fetch sample_parse (answers 20 (json_response 200 body_ok)) default_config
     "https://app.example.com" false "items" (Some 0) [no_options]).2
  = Some ((announce no_options).1 ++ []
          ++ (parseResponse sample_parse
                (resolve_url default_config "https://app.example.com" no_options "items")
                no_options (VResponse (json_response 200 body_ok))).1,
          (parseResponse sample_parse
             (resolve_url default_config "https://app.example.com" no_options "items")
             no_options (VResponse (json_response 200 body_ok))).2).
Proof.
  apply (answer_before_deadline_wins sample_parse (answers 20 (json_response 200 body_ok))
           default_config "https://app.example.com" false "items" 0 [no_options]
           no_options 20 (VResponse (json_response 200 body_ok)) 1 []);
    [reflexivity|vm_compute; reflexivity|vm_compute; reflexivity].
Defined.

Lemma exhausted_retries_fail_the_call_witness :
  ∃ tr, (fetch sample_parse (always_fails 10) default_config "https://app.example.com"
           false "items" (Some 0) [no_options]).2
        = Some (tr, Raise (NetError (VStr "Could Not Communicate With Server")
                             (failure_envelope
                                (resolve_url default_config "https://app.example.com"
                                   no_options "items")))).
Proof.
  apply (exhausted_retries_fail_the_call sample_parse (always_fails 10) default_config
           "https://app.example.com" false "items" 0 [no_options] no_options (λ _, 10));
    [reflexivity|intros; reflexivity|vm_compute; reflexivity|reflexivity].
Defined.

Lemma no_response_is_a_444_witness :
  (parseResponse sample_parse "https://app.example.com/items" no_options VNull).2
  = Raise (NetError (VStr "Could Not Communicate With Server")
             (failure_envelope "https://app.example.com/items")).
Proof.
  exact (no_response_is_a_444 sample_parse "https://app.example.com/items" no_options
           VNull eq_refl).
Defined.

Lemma undecodable_body_is_dropped_witness :
  parseResponse sample_parse "https://app.example.com/items" no_options
    (VResponse (json_response 200 "{oops"))
  = ([Printed "CANNOT DECODE" "{oops"], Ok (plain VUndefined)).
Proof.
  apply (undecodable_body_is_dropped sample_parse "https://app.example.com/items"
           no_options (json_response 200 "{oops") "{oops");
    vm_compute; reflexivity.
Defined.

Lemma plain_body_is_returned_as_text_witness :
  parseResponse sample_parse "https://app.example.com/items" no_options
    (VResponse (text_response 200 "hello"))
  = ([], Ok (plain (VStr "hello"))).
Proof.
  apply (plain_body_is_returned_as_text sample_parse "https://app.example.com/items"
           no_options (text_response 200 "hello") "hello");
    vm_compute; reflexivity.
Defined.

Lemma other_statuses_throw_the_fixed_message_witness :
  ∃ resp,
    envelope sample_parse "https://app.example.com/items" no_options
      (VResponse (json_response 500 body_ok)) = Some resp
    ∧ (parseResponse sample_parse "https://app.example.com/items" no_options
         (VResponse (json_response 500 body_ok))).2
      = Raise (NetError (VStr "Could Not Communicate With Server") resp)
    ∧ get_prop resp "severity" = VStr "error".
Proof.
  eexists. split; [vm_compute; reflexivity|].
  eapply (other_statuses_throw_the_fixed_message sample_parse
            "https://app.example.com/items" no_options
            (VResponse (json_response 500 body_ok)));
    vm_compute; reflexivity.
Defined.

Lemma message_falls_back_only_when_logging_witness :
  ∃ env,
    (parseResponse denied_parse "https://app.example.com/items" no_options
       (VResponse (json_response 200 body_denied))).2
    = Raise (NetError (VStr "Denied") env).
Proof.
  destruct (message_falls_back_only_when_logging denied_parse
              "https://app.example.com/items" no_options (json_response 200 body_denied)
              false (list_to_map [("error", VBool true);
                                  ("feedback", object_of [("error", VStr "Denied")])]))
    as [env Henv]; [by left|vm_compute; reflexivity|reflexivity|reflexivity|reflexivity|].
  exists env. exact Henv.
Defined.

Lemma envelope_carries_the_raw_outcome_witness :
  ∃ resp,
    envelope sample_parse "https://app.example.com/items" no_options
      (VResponse (json_response 200 body_ok)) = Some resp
    ∧ get_prop resp "response" = VResponse (json_response 200 body_ok).
Proof.
  eexists. split; [vm_compute; reflexivity|].
  apply (envelope_carries_the_raw_outcome sample_parse "https://app.example.com/items"
           no_options (VResponse (json_response 200 body_ok))).
  vm_compute; reflexivity.
Defined.

Lemma unauthorized_is_notified_witness :
  ∃ tr resp st,
    normalize sample_parse "https://app.example.com/items" no_options
      (VResponse (json_response 401 body_error)) = (tr, Ok (resp, st))
    ∧ notified "logout" tr.
Proof.
  eexists _, _, _. split; [vm_compute; reflexivity|].
  eapply (unauthorized_is_notified sample_parse "https://app.example.com/items"
            no_options (VResponse (json_response 401 body_error)));
    [vm_compute; reflexivity|reflexivity|reflexivity].
Defined.

Lemma login_only_on_a_401_that_throws_witness :
  loose_eq (status_of (VResponse (json_response 401 body_error))) 401 = true
  ∧ not_false (throw no_options) = true
  ∧ ∃ m p, (parseResponse sample_parse "https://app.example.com/items" no_options
              (VResponse (json_response 401 body_error))).2
           = Raise (NetError m p).
Proof.
  apply (login_only_on_a_401_that_throws sample_parse "https://app.example.com/items"
           no_options (VResponse (json_response 401 body_error))).
  exists VUndefined. apply (list_elem_of_lookup_2 _ 2). vm_compute; reflexivity.
Defined.

Lemma every_other_status_is_fed_back_witness :
  notified "feedback"
    (parseResponse sample_parse "https://app.example.com/items" no_options
       (VResponse (json_response 500 body_ok))).1.
Proof.
  eapply (every_other_status_is_fed_back sample_parse "https://app.example.com/items"
            no_options (VResponse (json_response 500 body_ok)));
    [vm_compute; reflexivity|reflexivity|reflexivity].
Defined.

Lemma feedback_false_is_silent_witness :
  ∃ tr res,
    (fetch sample_parse (answers 20 (json_response 500 body_ok)) default_config
       "https://app.example.com" false "items" (Some 0) [with_feedback (VBool false)]).2
    = Some (tr, res)
    ∧ ¬ notified "feedback" tr.
Proof.
  eexists _, _. split; [vm_compute; reflexivity|].
  eapply (feedback_false_is_silent sample_parse (answers 20 (json_response 500 body_ok))
            default_config "https://app.example.com" false "items" 0
            [with_feedback (VBool false)] (with_feedback (VBool false)));
    [reflexivity|reflexivity|vm_compute; reflexivity].
Defined.

Lemma progress_is_bracketed_witness :
  ∃ tr res,
    (fetch sample_parse (answers 20 (json_response 200 body_ok)) default_config
       "https://app.example.com" false "items" (Some 0) [with_progress (VBool true)]).2
    = Some (tr, res)
    ∧ ∃ l1 l2 l3,
        tr = l1 ++ Callback "start" VUndefined :: l2 ++ Callback "stop" VUndefined :: l3.
Proof.
  eexists _, _. split; [vm_compute; reflexivity|].
  eapply (progress_is_bracketed sample_parse (answers 20 (json_response 200 body_ok))
            default_config "https://app.example.com" false "items" 0
            [with_progress (VBool true)] (with_progress (VBool true)));
    [reflexivity|reflexivity|vm_compute; reflexivity|discriminate].
Defined.

Lemma get_is_fetch_with_GET_witness :
  (get sample_parse (answers 20 (json_response 200 body_ok)) default_config
     "https://app.example.com" false "items" (Some 0) [no_options]).2
  = (fetch sample_parse (answers 20 (json_response 200 body_ok)) default_config
       "https://app.example.com" false "items" (Some 0)
       (<[0 := set_method "GET" no_options]> [no_options])).2.
Proof.
  apply (get_is_fetch_with_GET sample_parse (answers 20 (json_response 200 body_ok))
           default_config "https://app.example.com" false "items" 0 [no_options]
           no_options).
  reflexivity.
Defined.

End Net.
